(** * ProTeX (Python version): prologue-to-LaTeX engine of [protex.py]

    A shallow embedding of the line-oriented recognition-and-emission engine
    of [protex.py]: the language table and marker vocabulary
    ([language_info], [get_language_info], [get_language_tokens]), the
    fragment emitters ([do_beg], [do_boc], [do_eoc], [process_resource_line],
    [process_generic], ...) and the per-line state machine of [process_file].

    Conventions of the embedding.
    - A Python [str] is a [string]; a character is a code point below 256.
    - The document state (the [state] dict of [main]) is the record [State].
    - Standard output is the list of the arguments of the successive
      [print] calls, oldest first; every [print] terminates its argument
      with a newline, so an element [s] stands for the text [s ++ nl].
    - A Python exception is a value of [exn]; a computation that prints and
      may raise has type [Run]: what was printed, and the exception or the
      state reached. *)

From Stdlib Require Import String Ascii List Bool Arith NArith Lia.
Import ListNotations.
Open Scope string_scope.

(** ** Python string primitives *)

Module PyStr.

(** The newline character, [chr 10]. *)
Definition nl_char : ascii := Ascii.ascii_of_nat 10.
Definition nl : string := String nl_char EmptyString.

(** [str.isspace] on one character below 256: TAB..CR, FS..US, space,
    NEL and the no-break space. *)
Definition is_space (c : ascii) : bool :=
  let n := Ascii.nat_of_ascii c in
  (((9 <=? n) && (n <=? 13)) || ((28 <=? n) && (n <=? 32))
   || (n =? 133) || (n =? 160))%nat.

Definition is_empty (s : string) : bool :=
  match s with EmptyString => true | String _ _ => false end.

(** [s.lstrip()] *)
Fixpoint lstrip (s : string) : string :=
  match s with
  | EmptyString => EmptyString
  | String c s' => if is_space c then lstrip s' else s
  end.

(** [s.rstrip(chars)] for a predicate on characters. *)
Fixpoint rstrip_if (p : ascii -> bool) (s : string) : string :=
  match s with
  | EmptyString => EmptyString
  | String c s' =>
      let r := rstrip_if p s' in
      if is_empty r && p c then EmptyString else String c r
  end.

(** [s.rstrip()] *)
Definition rstrip (s : string) : string := rstrip_if is_space s.

(** [s.rstrip("\n")] *)
Definition rstrip_nl (s : string) : string :=
  rstrip_if (fun c => Ascii.eqb c nl_char) s.

(** [s.strip()] *)
Definition strip (s : string) : string := lstrip (rstrip s).

(** [s[n:]] *)
Fixpoint drop (n : nat) (s : string) : string :=
  match n, s with
  | O, _ => s
  | S _, EmptyString => EmptyString
  | S n', String _ s' => drop n' s'
  end.

(** [s.startswith(p)] *)
Definition startswith (s p : string) : bool := String.prefix p s.

(** [sub in s] *)
Fixpoint str_in (sub s : string) : bool :=
  String.prefix sub s ||
  match s with
  | EmptyString => false
  | String _ s' => str_in sub s'
  end.

(** [sep.join(l)] *)
Definition join (sep : string) (l : list string) : string := String.concat sep l.

(** [s.split(maxsplit=m)] with the default (whitespace) separator; [None]
    is Python's [-1], no limit.  [cur] is the token being read (empty between
    tokens); when the limit is exhausted the rest of the string, from its
    first non-blank character on, is the last field. *)
Fixpoint split_go (maxsplit : option N) (cur : string) (s : string) : list string :=
  match s with
  | EmptyString => if is_empty cur then [] else [cur]
  | String c s' =>
      if is_space c then
        if is_empty cur then split_go maxsplit EmptyString s'
        else cur :: split_go (option_map N.pred maxsplit) EmptyString s'
      else
        if is_empty cur then
          match maxsplit with
          | Some 0%N => [s]
          | _ => split_go maxsplit (String c EmptyString) s'
          end
        else split_go maxsplit (cur ++ String c EmptyString) s'
  end.

Definition split_ws (maxsplit : option N) (s : string) : list string :=
  split_go maxsplit EmptyString s.

(** [s.split(sep)] for a one-character separator: always at least one part. *)
Fixpoint split_on_go (sep : ascii) (cur : string) (s : string) : list string :=
  match s with
  | EmptyString => [cur]
  | String c s' =>
      if Ascii.eqb c sep then cur :: split_on_go sep EmptyString s'
      else split_on_go sep (cur ++ String c EmptyString) s'
  end.

Definition split_on (sep : ascii) (s : string) : list string :=
  split_on_go sep EmptyString s.

(** [s.replace(old, new)] for a non-empty [old] (the only use in the
    program): the occurrences are replaced left to right, without overlap.
    [skip] counts the characters of a match still to be passed over. *)
Fixpoint replace_go (old new : string) (skip : nat) (s : string) : string :=
  match s with
  | EmptyString => EmptyString
  | String c s' =>
      match skip with
      | S k => replace_go old new k s'
      | O =>
          if String.prefix old s
          then new ++ replace_go old new (Nat.pred (String.length old)) s'
          else String c (replace_go old new 0 s')
      end
  end.

Definition replace (old new s : string) : string := replace_go old new 0 s.

(** [os.path.basename(p)]: what follows the last slash. *)
Fixpoint basename_go (cur : string) (p : string) : string :=
  match p with
  | EmptyString => cur
  | String c p' =>
      if Ascii.eqb c "/"%char then basename_go EmptyString p'
      else basename_go (cur ++ String c EmptyString) p'
  end.

Definition basename (p : string) : string := basename_go EmptyString p.

(** [x in l] for a list of strings. *)
Definition mem (x : string) (l : list string) : bool :=
  existsb (String.eqb x) l.

End PyStr.

Import PyStr.

(** ** Exceptions and printing computations *)

Inductive exn : Type :=
| ValueError (msg : string)
| TypeError (msg : string).

(** [template % args] where the template holds no conversion other than
    [%s]: each [%s] takes the next argument; too few or too many arguments
    raise [TypeError].  The other conversions are not modelled (no template
    of the program holds one): a percent sign followed by anything else
    raises [ValueError]. *)
Fixpoint pct_format (template : string) (args : list string) : exn + string :=
  match template with
  | EmptyString =>
      match args with
      | [] => inr EmptyString
      | _ :: _ => inl (TypeError "not all arguments converted during string formatting")
      end
  | String c t' =>
      if Ascii.eqb c "%"%char then
        match t' with
        | String "s"%char t'' =>
            match args with
            | [] => inl (TypeError "not enough arguments for format string")
            | a :: args' =>
                match pct_format t'' args' with
                | inr r => inr (a ++ r)
                | inl e => inl e
                end
            end
        | _ => inl (ValueError "unsupported format character")
        end
      else
        match pct_format t' args with
        | inr r => inr (String c r)
        | inl e => inl e
        end
  end.

(** ** Language table and marker vocabulary *)

Record LangInfo : Type := mkLangInfo {
  li_name : string;
  li_comment : string;
  li_lang : string
}.

(** The dict [language_info], in its insertion order. *)
Definition language_info : list (string * LangInfo) :=
  [ ("F", mkLangInfo "Fortran90" "!"  "fortran");
    ("A", mkLangInfo "Ada"       "--" "ada");
    ("C", mkLangInfo "C++"       "//" "c");
    ("S", mkLangInfo "Shell"     "#"  "bash");
    ("G", mkLangInfo "GrADS"     "*"  "bash");
    ("P", mkLangInfo "Python"    "#"  "python") ].

(** Dict lookup by key. *)
Fixpoint lookup {A : Type} (k : string) (d : list (string * A)) : option A :=
  match d with
  | [] => None
  | (k', v) :: d' => if String.eqb k k' then Some v else lookup k d'
  end.

Definition get_language_info (code : string) (info_type : string) : exn + string :=
  match lookup code language_info with
  | None => inl (ValueError ("Invalid language code: '" ++ code ++ "'"))
  | Some info =>
      if negb (mem info_type ["comment"; "lang"; "name"]) then
        inl (ValueError ("Invalid info_type: '" ++ info_type
                         ++ "', must be 'comment', 'lang' or 'name'"))
      else if String.eqb info_type "comment" then inr (li_comment info)
      else if String.eqb info_type "lang" then inr (li_lang info)
      else inr (li_name info)
  end.

(** The dict returned by [get_language_tokens]: its keys are fixed, so it is
    a record with one field per key. *)
Record Tokens : Type := mkTokens {
  comment : string;
  bop : string;
  eop : string;
  boi : string;
  eoi : string;
  boc : string;
  eoc : string;
  boe : string;
  eoe : string;
  bor : string;
  eor : string;
  bopi : string;
  eopi : string;
  iiro : string;
  cro : string;
  program : string
}.

(** The dict literal built by [get_language_tokens] from the comment
    symbol. *)
Definition tokens_of_symbol (symbol : string) : Tokens :=
  {| comment := symbol;
     bop := symbol ++ "BOP";
     eop := symbol ++ "EOP";
     boi := symbol ++ "BOI";
     eoi := symbol ++ "EOI";
     boc := symbol ++ "BOC";
     eoc := symbol ++ "EOC";
     boe := symbol ++ "BOE";
     eoe := symbol ++ "EOE";
     bor := symbol ++ "BOR";
     eor := symbol ++ "EOR";
     bopi := symbol ++ "BOPI";
     eopi := symbol ++ "EOPI";
     iiro := symbol ++ "IIROUTINE:";
     cro := symbol ++ "CROUTINE:";
     program := symbol ++ "PROGRAM:" |}.

Definition get_language_tokens (lang : string) : exn + Tokens :=
  match get_language_info lang "comment" with
  | inl e => inl e
  | inr symbol => inr (tokens_of_symbol symbol)
  end.

(** The marker roles of a token dict, and the dict read by role. *)
Inductive Role : Type :=
| RComment | RBop | REop | RBoi | REoi | RBoc | REoc | RBoe | REoe
| RBor | REor | RBopi | REopi | RIiro | RCro | RProgram.

Definition token (t : Tokens) (r : Role) : string :=
  match r with
  | RComment => comment t
  | RBop => bop t | REop => eop t
  | RBoi => boi t | REoi => eoi t
  | RBoc => boc t | REoc => eoc t
  | RBoe => boe t | REoe => eoe t
  | RBor => bor t | REor => eor t
  | RBopi => bopi t | REopi => eopi t
  | RIiro => iiro t | RCro => cro t | RProgram => program t
  end.

(** The suffix the specification attaches to each role (none for the bare
    comment symbol); the three routine-keyword roles are the last three. *)
Definition role_suffix (r : Role) : string :=
  match r with
  | RComment => EmptyString
  | RBop => "BOP" | REop => "EOP"
  | RBoi => "BOI" | REoi => "EOI"
  | RBoc => "BOC" | REoc => "EOC"
  | RBoe => "BOE" | REoe => "EOE"
  | RBor => "BOR" | REor => "EOR"
  | RBopi => "BOPI" | REopi => "EOPI"
  | RIiro => "IIROUTINE:" | RCro => "CROUTINE:" | RProgram => "PROGRAM:"
  end.

(** The language codes the program supports (the keys of [language_info]
    as its documentation lists them). *)
Definition supported_codes : list string := ["F"; "A"; "C"; "S"; "G"; "P"].

(** ** Document state *)

(** The [state] dict of [main]; its key set never changes, so it is a record
    with one field per key. *)
Record State : Type := mkState {
  intro : bool;
  prologue : bool;
  first : bool;
  source : bool;
  verb : bool;
  tpage : bool;
  begdoc : bool;
  not_first : bool;
  have_name : bool;
  have_desc : bool;
  have_intf : bool;
  have_hist : bool;
  name_is : string;
  title : string;
  author : string;
  affiliation : string;
  doc_date : string;
  resource : bool
}.

(** [state[key] = v], one setter per key. *)
Definition set_intro (v : bool) (st : State) : State :=
  mkState v (prologue st) (first st) (source st) (verb st) (tpage st)
    (begdoc st) (not_first st) (have_name st) (have_desc st) (have_intf st)
    (have_hist st) (name_is st) (title st) (author st) (affiliation st)
    (doc_date st) (resource st).

Definition set_prologue (v : bool) (st : State) : State :=
  mkState (intro st) v (first st) (source st) (verb st) (tpage st)
    (begdoc st) (not_first st) (have_name st) (have_desc st) (have_intf st)
    (have_hist st) (name_is st) (title st) (author st) (affiliation st)
    (doc_date st) (resource st).

Definition set_first (v : bool) (st : State) : State :=
  mkState (intro st) (prologue st) v (source st) (verb st) (tpage st)
    (begdoc st) (not_first st) (have_name st) (have_desc st) (have_intf st)
    (have_hist st) (name_is st) (title st) (author st) (affiliation st)
    (doc_date st) (resource st).

Definition set_source (v : bool) (st : State) : State :=
  mkState (intro st) (prologue st) (first st) v (verb st) (tpage st)
    (begdoc st) (not_first st) (have_name st) (have_desc st) (have_intf st)
    (have_hist st) (name_is st) (title st) (author st) (affiliation st)
    (doc_date st) (resource st).

Definition set_verb (v : bool) (st : State) : State :=
  mkState (intro st) (prologue st) (first st) (source st) v (tpage st)
    (begdoc st) (not_first st) (have_name st) (have_desc st) (have_intf st)
    (have_hist st) (name_is st) (title st) (author st) (affiliation st)
    (doc_date st) (resource st).

Definition set_tpage (v : bool) (st : State) : State :=
  mkState (intro st) (prologue st) (first st) (source st) (verb st) v
    (begdoc st) (not_first st) (have_name st) (have_desc st) (have_intf st)
    (have_hist st) (name_is st) (title st) (author st) (affiliation st)
    (doc_date st) (resource st).

Definition set_begdoc (v : bool) (st : State) : State :=
  mkState (intro st) (prologue st) (first st) (source st) (verb st)
    (tpage st) v (not_first st) (have_name st) (have_desc st) (have_intf st)
    (have_hist st) (name_is st) (title st) (author st) (affiliation st)
    (doc_date st) (resource st).

Definition set_not_first (v : bool) (st : State) : State :=
  mkState (intro st) (prologue st) (first st) (source st) (verb st)
    (tpage st) (begdoc st) v (have_name st) (have_desc st) (have_intf st)
    (have_hist st) (name_is st) (title st) (author st) (affiliation st)
    (doc_date st) (resource st).

Definition set_have_name (v : bool) (st : State) : State :=
  mkState (intro st) (prologue st) (first st) (source st) (verb st)
    (tpage st) (begdoc st) (not_first st) v (have_desc st) (have_intf st)
    (have_hist st) (name_is st) (title st) (author st) (affiliation st)
    (doc_date st) (resource st).

Definition set_have_desc (v : bool) (st : State) : State :=
  mkState (intro st) (prologue st) (first st) (source st) (verb st)
    (tpage st) (begdoc st) (not_first st) (have_name st) v (have_intf st)
    (have_hist st) (name_is st) (title st) (author st) (affiliation st)
    (doc_date st) (resource st).

Definition set_have_intf (v : bool) (st : State) : State :=
  mkState (intro st) (prologue st) (first st) (source st) (verb st)
    (tpage st) (begdoc st) (not_first st) (have_name st) (have_desc st) v
    (have_hist st) (name_is st) (title st) (author st) (affiliation st)
    (doc_date st) (resource st).

Definition set_have_hist (v : bool) (st : State) : State :=
  mkState (intro st) (prologue st) (first st) (source st) (verb st)
    (tpage st) (begdoc st) (not_first st) (have_name st) (have_desc st)
    (have_intf st) v (name_is st) (title st) (author st) (affiliation st)
    (doc_date st) (resource st).

Definition set_name_is (v : string) (st : State) : State :=
  mkState (intro st) (prologue st) (first st) (source st) (verb st)
    (tpage st) (begdoc st) (not_first st) (have_name st) (have_desc st)
    (have_intf st) (have_hist st) v (title st) (author st) (affiliation st)
    (doc_date st) (resource st).

Definition set_title (v : string) (st : State) : State :=
  mkState (intro st) (prologue st) (first st) (source st) (verb st)
    (tpage st) (begdoc st) (not_first st) (have_name st) (have_desc st)
    (have_intf st) (have_hist st) (name_is st) v (author st) (affiliation st)
    (doc_date st) (resource st).

Definition set_author (v : string) (st : State) : State :=
  mkState (intro st) (prologue st) (first st) (source st) (verb st)
    (tpage st) (begdoc st) (not_first st) (have_name st) (have_desc st)
    (have_intf st) (have_hist st) (name_is st) (title st) v (affiliation st)
    (doc_date st) (resource st).

Definition set_affiliation (v : string) (st : State) : State :=
  mkState (intro st) (prologue st) (first st) (source st) (verb st)
    (tpage st) (begdoc st) (not_first st) (have_name st) (have_desc st)
    (have_intf st) (have_hist st) (name_is st) (title st) (author st) v
    (doc_date st) (resource st).

Definition set_doc_date (v : string) (st : State) : State :=
  mkState (intro st) (prologue st) (first st) (source st) (verb st)
    (tpage st) (begdoc st) (not_first st) (have_name st) (have_desc st)
    (have_intf st) (have_hist st) (name_is st) (title st) (author st)
    (affiliation st) v (resource st).

Definition set_resource (v : bool) (st : State) : State :=
  mkState (intro st) (prologue st) (first st) (source st) (verb st)
    (tpage st) (begdoc st) (not_first st) (have_name st) (have_desc st)
    (have_intf st) (have_hist st) (name_is st) (title st) (author st)
    (affiliation st) (doc_date st) v.

(** The state [main] starts from. *)
Definition initial_state : State :=
  {| intro := false; prologue := false; first := true; source := false;
     verb := false; tpage := false; begdoc := false; not_first := false;
     have_name := false; have_desc := false; have_intf := false;
     have_hist := false; name_is := "UNKNOWN"; title := EmptyString;
     author := EmptyString; affiliation := EmptyString;
     doc_date := EmptyString; resource := false |}.

(** ** Command-line options consumed by the engine *)

Module Opt.
Record t : Type := mk {
  bare : bool;
  g : bool;
  M : bool;
  n : bool;
  l : bool;
  s : bool;
  nolatex : bool;
  f : bool;
  internal : bool;
  keys : list string;
  style : option string
}.
End Opt.

(** The default of [--keys]. *)
Definition default_keys : list string :=
  [ "!INTERFACE:"; "!USES:"; "!PUBLIC TYPES:"; "!PRIVATE TYPES:";
    "!PUBLIC MEMBER FUNCTIONS:"; "!PRIVATE MEMBER FUNCTIONS:";
    "!PUBLIC DATA MEMBERS:"; "!PARAMETERS:"; "!ARGUMENTS:";
    "!DEFINED PARAMETERS:"; "!INPUT PARAMETERS:"; "!INPUT/OUTPUT PARAMETERS:";
    "!OUTPUT PARAMETERS:"; "!RETURN VALUE:"; "!REVISION HISTORY:";
    "!BUGS:"; "!SEE ALSO:"; "!SYSTEM ROUTINES:"; "!FILES USED:";
    "!REMARKS:"; "!TO DO:"; "!CALLING SEQUENCE:"; "!AUTHOR:";
    "!CALLED FROM:"; "!LOCAL VARIABLES:" ].

(** The options of a run without any switch. *)
Definition default_opts : Opt.t :=
  {| Opt.bare := false; Opt.g := false; Opt.M := false; Opt.n := false;
     Opt.l := false; Opt.s := false; Opt.nolatex := false; Opt.f := false;
     Opt.internal := false; Opt.keys := default_keys; Opt.style := None |}.

(** What a printing computation that may raise yields: the exception or the
    state reached, and what was printed before. *)
Definition Run : Type := ((exn + State) * list string)%type.

(** Concatenation of printed lines ([++] is kept for strings). *)
Notation "a +++ b" := (@List.app string a b)
  (at level 60, right associativity) : string_scope.

Definition ok (r : State * list string) : Run := (inr (fst r), snd r).

(** ** Fragment emitters *)

Definition do_beg (state : State) (bare : bool) : State * list string :=
  if bare then (state, [])
  else if negb (begdoc state) then
    (set_begdoc true state,
     (if tpage state
      then [ "\title{" ++ title state ++ "}";
             "\author{{\sc " ++ author state ++ "}\\ {\em "
               ++ affiliation state ++ "}}";
             "\date{" ++ doc_date state ++ "}" ]
      else [])
     +++ ["\begin{document}"]
     +++ (if tpage state then ["\maketitle"] else [])
     +++ ["\tableofcontents"; "\newpage"])
  else (state, []).

Definition minted_begin (options lang_name : string) : string :=
  "\begin{minted}[" ++ options ++ "]{" ++ lang_name ++ "}".

Definition minted_end : string := "\end{minted}".

Definition do_boc (state : State) (lang_name : string) : State * list string :=
  (set_verb true (set_source true (set_prologue false (set_first false state))),
   [ nl ++ " %------------------ START CODE ------------------%";
     minted_begin "breaklines,breakafter=-+*/&" lang_name ]).

Definition end_code_banner : string :=
  nl ++ " %------------------ END CODE ------------------%".

Definition do_eoc (state : State) : State * list string :=
  let (state1, out1) :=
    if verb state then (set_verb false state, [minted_end]) else (state, []) in
  (set_source false state1, out1 +++ [end_code_banner]).

Definition set_missing (state : State) : State :=
  set_name_is "UNKNOWN"
    (set_have_hist false
       (set_have_intf false (set_have_desc false (set_have_name false state)))).

(** [process_resource_line]: what it prints. *)
Definition process_resource_line (line : string) : list string :=
  let parts := map strip (split_on ","%char line) in
  if (4 <=? length parts)%nat then
    [ "\makebox[1.0in][l]{" ++ nth 0 parts EmptyString ++ "} & " ++
      "\makebox[3.5in][l]{" ++ nth 1 parts EmptyString ++ "} & " ++
      "\makebox[1.0in][l]{" ++ nth 2 parts EmptyString ++ "} & " ++
      "\makebox[1.0in][l]{" ++ nth 3 parts EmptyString ++ "} \\";
      "\hline" ]
  else [line].

(** ** Field dispatch table *)

Definition get_format (fmt : string) (remove_source : bool) : string :=
  if remove_source then replace " (Source File: %s)" EmptyString fmt else fmt.

(** The type of the values of the dict [prologue_processors]. *)
Definition Handler : Type := list string -> string -> Opt.t -> State -> Run.

Definition process_generic (fields : list string) (latex_template : string)
    (file_basename : string) (opts : Opt.t) (state : State) : Run :=
  let latex_template := get_format latex_template (Opt.f opts) in
  let content := replace "_" "\_" (join " " fields) in
  let out1 := if Opt.n opts && not_first state then ["\newpage"] else [] in
  let formatted :=
    if negb (Opt.f opts)
    then pct_format latex_template [content; file_basename]
    else pct_format latex_template [content] in
  match formatted with
  | inl e => (inl e, out1)
  | inr text =>
      (inr (set_not_first true (set_have_name true state)), out1 +++ [text])
  end.

Definition subsubsection_label_template : string :=
  "\subsubsection [%s]{%s}" ++ nl.

Definition process_internal (fields : list string) (file_basename : string)
    (opts : Opt.t) (state : State) : Run :=
  let content := replace "_" "\_" (join " " fields) in
  let words := split_ws None content in
  let short_label :=
    if (1 <? length words)%nat then nth 1 words EmptyString else EmptyString in
  match pct_format subsubsection_label_template [short_label; content] with
  | inl e => (inl e, [])
  | inr text => (inr (set_have_name true state), [text])
  end.

Definition process_overloaded (fields : list string) (file_basename : string)
    (opts : Opt.t) (state : State) : Run :=
  let content := replace "_" "\_" (join " " fields) in
  let words := split_ws None content in
  let short_label :=
    if (1 <? length words)%nat then join " " (skipn 1 words) else EmptyString in
  match pct_format subsubsection_label_template [short_label; content] with
  | inl e => (inl e, [])
  | inr text => (inr (set_have_name true state), [text])
  end.

Definition process_contained (fields : list string) (file_basename : string)
    (opts : Opt.t) (state : State) : Run :=
  let content := replace "_" "\_" (join " " fields) in
  let words := split_ws None content in
  let short_label :=
    if (1 <? length words)%nat then nth 1 words EmptyString else EmptyString in
  match pct_format subsubsection_label_template [short_label; content] with
  | inl e => (inl e, [])
  | inr text => (inr (set_have_name true state), [text])
  end.

Definition module_template : string :=
  "\subsection{Fortran: Module Interface %s (Source File: %s)}" ++ nl.
Definition program_template : string :=
  "\subsection{Fortran: Main Program %s (Source File: %s)}" ++ nl.
Definition routine_template : string :=
  "\subsubsection{%s (Source File: %s)}" ++ nl.
(** The literal passed for [!FUNCTION:], which the table does not run
    through [get_format]. *)
Definition function_template : string :=
  "\subsubsection{%s (Source File: %s)}" ++ nl.

Definition get_prologue_processors (opts : Opt.t) : list (string * Handler) :=
  let remove_source := Opt.f opts in
  [ ("!MODULE:", fun fields fb opts state =>
       process_generic fields (get_format module_template remove_source)
         fb opts state);
    ("!PROGRAM:", fun fields fb opts state =>
       process_generic fields (get_format program_template remove_source)
         fb opts state);
    ("!ROUTINE:", fun fields fb opts state =>
       process_generic fields (get_format routine_template remove_source)
         fb opts state);
    ("!FUNCTION:", fun fields fb opts state =>
       process_generic fields function_template fb opts state);
    ("!IROUTINE:", process_internal);
    ("!IFUNCTION:", process_internal);
    ("!IIROUTINE:", process_overloaded);
    ("!CROUTINE:", process_contained) ].

(** ** The per-line state machine of [process_file] *)

(** [mi]: 1 when the first field is the bare comment symbol, else 0. *)
Definition marker_index (tokens : Tokens) (fields : list string) : nat :=
  match fields with
  | f0 :: _ => if f0 =? comment tokens then 1 else 0
  | [] => 0
  end.

(** [if mi == 1: fields.pop(0)] followed by [fields.pop(0)]. *)
Definition pop_marker (mi : nat) (fields : list string) : list string :=
  skipn 1 (if (mi =? 1)%nat then skipn 1 fields else fields).

Definition slash_rule : string :=
  nl ++ " %/////////////////////////////////////////////////////////////".

(** The title-page and introduction keys, looked for in [fields[mi+1]] while
    an introduction is open; [None] when the line falls through. *)
Definition intro_stage (opts : Opt.t) (state : State) (fields : list string)
    (mi : nat) : option Run :=
  if intro state && (mi + 1 <? length fields)%nat then
    let marker := nth (mi + 1) fields EmptyString in
    let rest := join " " (pop_marker mi fields) in
    if marker =? "!TITLE:" then
      Some (ok (set_tpage true (set_title rest state), []))
    else if marker =? "!AUTHORS:" then
      Some (ok (set_tpage true (set_author rest state), []))
    else if marker =? "!AFFILIATION:" then
      Some (ok (set_tpage true (set_affiliation rest state), []))
    else if marker =? "!DATE:" then
      Some (ok (set_tpage true (set_doc_date rest state), []))
    else if marker =? "!INTRODUCTION:" then
      let (state1, out1) := do_beg state (Opt.bare opts) in
      Some (ok (state1,
                out1 +++ [ " %..............................................";
                           "\section{" ++ rest ++ "}" ]))
    else None
  else None.

Definition bor_skeleton : list string :=
  [ "\begin{center}";
    "{\bf RESOURCES:}\\";
    "\begin{tabular}{|l|l|l|l|}";
    "\hline";
    "\textbf{Name} & \textbf{Description} & \textbf{Units} & \textbf{Default} \\";
    "\hline";
    "\end{tabular}";
    "\end{center}" ].

(** The body shared by the [!BOP] branch and the non-internal [!BOPI]
    branch (the source repeats it verbatim). *)
Definition open_prologue (opts : Opt.t) (state : State) : State * list string :=
  let (state1, out1) := if source state then do_eoc state else (state, []) in
  let (state2, out2) := do_beg state1 (Opt.bare opts) in
  let out3 :=
    if negb (first state2) then [nl ++ "\mbox{}\hrulefill\"]
    else if negb (Opt.bare opts) && negb (Opt.g opts || Opt.M opts)
         then ["\section{Routine/Function Prologues} \label{app:ProLogues}"]
         else [] in
  (set_missing
     (set_source false (set_verb false (set_prologue true (set_first false state2)))),
   out1 +++ out2 +++ out3).

(** The words whose presence in the line turns a keyword label into
    emphasized text. *)
Definition emphasis_words : list string :=
  ["USES"; "INPUT"; "OUTPUT"; "PARAMETERS"; "VALUE"; "ARGUMENTS"].

(** The block [if state["prologue"]: ...]; [None] when no branch of it
    reaches a [continue]. *)
Definition prologue_stage (opts : Opt.t) (tokens : Tokens) (lang_name : string)
    (file_basename : string) (state : State) (line : string)
    (fields : list string) (mi : nat) : option Run :=
  if prologue state then
    let marker :=
      if (1 <? length fields)%nat then nth 1 fields EmptyString
      else nth 0 fields EmptyString in
    match lookup marker (get_prologue_processors opts) with
    | Some handler =>
        Some (handler (pop_marker mi fields) file_basename opts state)
    | None =>
        if str_in "!DESCRIPTION:" line then
          let (state1, out1) :=
            if verb state
            then (set_verb false state,
                  [minted_end; "{\sf DESCRIPTION:\\ }"; EmptyString])
            else (state, []) in
          let (state2, out2) :=
            if Opt.nolatex opts
            then (set_verb true state1, [minted_begin "breaklines" lang_name])
            else
              let parts := split_ws None line in
              let start := if nth 0 parts EmptyString =? "!" then 1 else 0 in
              (state1, [join " " (skipn (start + 1) parts)]) in
          Some (ok (set_have_desc true state2, out1 +++ out2))
        else
          match find (fun key => str_in key line) (Opt.keys opts) with
          | Some key =>
              let (state1, out1) :=
                if verb state then (set_verb false state, [minted_end])
                else (state, [nl ++ "\bigskip"]) in
              let label := drop 1 key in
              let out2 :=
                if existsb (fun x => str_in x line) emphasis_words
                then ["{\em " ++ label ++ "}"]
                else ["{\sf " ++ label ++ "}"] in
              Some (ok (set_verb true state1,
                        out1 +++ out2 +++ [minted_begin "breaklines" lang_name]))
          | None =>
              if mem (nth mi fields EmptyString) [eop tokens; eopi tokens] then
                let (state1, out1) :=
                  if verb state then (set_verb false state, [minted_end])
                  else (state, []) in
                Some (ok (set_prologue false state1, out1))
              else None
          end
    end
  else None.

(** The body of the loop once [len(fields) > mi] is known. *)
Definition process_fields (opts : Opt.t) (tokens : Tokens) (lang_name : string)
    (file_basename : string) (state : State) (raw_line line : string)
    (fields : list string) (mi : nat) : Run :=
  let fmi := nth mi fields EmptyString in
  if resource state then
    if fmi =? eor tokens then ok (set_resource false state, [])
    else ok (state, process_resource_line line)
  else if fmi =? "!QUOTE:" then ok (state, [join " " (skipn (mi + 1) fields)])
  else if fmi =? boi tokens then ok (set_intro true state, [])
  else
    match intro_stage opts state fields mi with
    | Some r => r
    | None =>
        if fmi =? eoi tokens then
          ok (set_intro false state, [slash_rule; "\newpage"])
        else if fmi =? bor tokens then ok (set_resource true state, bor_skeleton)
        else if fmi =? bop tokens then ok (open_prologue opts state)
        else if fmi =? bopi tokens then
          if Opt.internal opts then ok (set_prologue false state, [])
          else ok (open_prologue opts state)
        else
          match prologue_stage opts tokens lang_name file_basename state
                  line fields mi with
          | Some r => r
          | None =>
              if fmi =? boc tokens then
                if Opt.s opts then ok (set_prologue false state, [])
                else ok (do_boc state lang_name)
              else if fmi =? eoc tokens then ok (do_eoc state)
              else if fmi =? boe tokens then
                let (state1, out1) :=
                  if source state then do_eoc state else (state, []) in
                ok (set_source false
                      (set_verb false (set_prologue true (set_first false state1))),
                    out1 +++ [slash_rule])
              else if fmi =? eoe tokens then
                let (state1, out1) :=
                  if verb state then (set_verb false state, [minted_end])
                  else (state, []) in
                ok (set_prologue false state1, out1)
              else if prologue state || intro state then
                ok (state,
                    [ if startswith line (comment tokens)
                      then drop (String.length (comment tokens)) line
                      else line ])
              else if source state then ok (state, [raw_line])
              else ok (state, [])
          end
    end.

(** [raw_line], [line] and [fields] of one iteration. *)
Definition raw_of (line0 : string) : string := rstrip (rstrip_nl line0).
Definition stripped_of (line0 : string) : string := lstrip (raw_of line0).
Definition fields_of (line0 : string) : list string :=
  split_ws (Some 9999%N) (stripped_of line0).

(** The token at the marker position, when the line has one. *)
Definition marker_of (tokens : Tokens) (line0 : string) : option string :=
  nth_error (fields_of line0) (marker_index tokens (fields_of line0)).

(** One iteration of [for line in f]. *)
Definition process_line (opts : Opt.t) (tokens : Tokens) (lang_name : string)
    (file_basename : string) (state : State) (line0 : string) : Run :=
  let raw_line := raw_of line0 in
  let line := stripped_of line0 in
  let fields := fields_of line0 in
  let mi := marker_index tokens fields in
  if (length fields <=? mi)%nat then ok (state, [])
  else process_fields opts tokens lang_name file_basename state
         raw_line line fields mi.

(** The loop [for line in f]; an exception ends it. *)
Fixpoint process_lines (opts : Opt.t) (tokens : Tokens) (lang_name : string)
    (file_basename : string) (state : State) (f : list string) : Run :=
  match f with
  | [] => (inr state, [])
  | line0 :: rest =>
      match process_line opts tokens lang_name file_basename state line0 with
      | (inl e, out) => (inl e, out)
      | (inr state', out) =>
          let (r, out') :=
            process_lines opts tokens lang_name file_basename state' rest in
          (r, out +++ out')
      end
  end.

Definition markboth_template : string :=
  nl ++ "\markboth{Left}{Source File: %s,  Date: %s}" ++ nl.

Definition file_basename_of (filename : string) : string :=
  replace "_" "\_"
    (if filename =? "-" then "Standard Input" else basename filename).

(** [process_file]; [f] is the list of the lines the file object yields and
    [file_date] the text of [datetime.now()] at the call. *)
Definition process_file (f : list string) (filename file_date : string)
    (state : State) (tokens : Tokens) (lang : string) (opts : Opt.t) : Run :=
  let file_basename := file_basename_of filename in
  match (if negb (Opt.g opts || Opt.M opts)
         then match pct_format markboth_template [file_basename; file_date] with
              | inl e => inl e
              | inr text => inr [text]
              end
         else inr []) with
  | inl e => (inl e, [])
  | inr out0 =>
      match get_language_info lang "lang" with
      | inl e => (inl e, out0)
      | inr lang_name =>
          match process_lines opts tokens lang_name file_basename state f with
          | (inl e, out) => (inl e, out0 +++ out)
          | (inr state1, out) =>
              let (state2, out2) :=
                if source state1 then do_eoc state1 else (state1, []) in
              (inr state2, out0 +++ out +++ [EmptyString] +++ out2)
          end
      end
  end.

(** An input of the run: the file name, the date read when its processing
    starts, and its lines. *)
Record SourceFile : Type := mkSourceFile {
  sf_name : string;
  sf_date : string;
  sf_lines : list string
}.

(** The loop [for filename in files] of [main]: one state for the whole
    run. *)
Fixpoint process_files (files : list SourceFile) (state : State)
    (tokens : Tokens) (lang : string) (opts : Opt.t) : Run :=
  match files with
  | [] => (inr state, [])
  | file :: rest =>
      match process_file (sf_lines file) (sf_name file) (sf_date file)
              state tokens lang opts with
      | (inl e, out) => (inl e, out)
      | (inr state', out) =>
          let (r, out') := process_files rest state' tokens lang opts in
          (r, out +++ out')
      end
  end.

(** ** Auxiliary notions used in the statements *)

(** The markers [process_file] tests before it looks at the prologue
    block. *)
Definition early_markers (tokens : Tokens) : list string :=
  ["!QUOTE:"; boi tokens; eoi tokens; bor tokens; bop tokens; bopi tokens].

(** All the markers that open or close a region or quote a line. *)
Definition structural_markers (tokens : Tokens) : list string :=
  early_markers tokens +++ [boc tokens; eoc tokens; boe tokens; eoe tokens].

(** A line without a token at the marker position, or whose marker token is
    no structural marker. *)
Definition plain_line (tokens : Tokens) (line0 : string) : bool :=
  match marker_of tokens line0 with
  | None => true
  | Some m => negb (mem m (structural_markers tokens))
  end.

(** The token the prologue block looks up in [prologue_processors]. *)
Definition prologue_marker (line0 : string) : string :=
  let fields := fields_of line0 in
  if (1 <? length fields)%nat then nth 1 fields EmptyString
  else nth 0 fields EmptyString.

(** The line is taken by a primary field marker of the dispatch table. *)
Definition primary_line (opts : Opt.t) (line0 : string) : bool :=
  match lookup (prologue_marker line0) (get_prologue_processors opts) with
  | Some _ => true
  | None => false
  end.

(** The line is taken by one of the field branches of the prologue block:
    a primary marker, the description marker or a configured keyword. *)
Definition field_line (opts : Opt.t) (line0 : string) : bool :=
  primary_line opts line0
  || str_in "!DESCRIPTION:" (stripped_of line0)
  || existsb (fun key => str_in key (stripped_of line0)) (Opt.keys opts).

(** Sample inputs. *)
Definition fortran_tokens : Tokens := tokens_of_symbol "!".

Definition with_f (opts : Opt.t) : Opt.t :=
  Opt.mk (Opt.bare opts) (Opt.g opts) (Opt.M opts) (Opt.n opts) (Opt.l opts)
    (Opt.s opts) (Opt.nolatex opts) true (Opt.internal opts) (Opt.keys opts)
    (Opt.style opts).
Definition with_s (opts : Opt.t) : Opt.t :=
  Opt.mk (Opt.bare opts) (Opt.g opts) (Opt.M opts) (Opt.n opts) (Opt.l opts)
    true (Opt.nolatex opts) (Opt.f opts) (Opt.internal opts) (Opt.keys opts)
    (Opt.style opts).
Definition with_internal (opts : Opt.t) : Opt.t :=
  Opt.mk (Opt.bare opts) (Opt.g opts) (Opt.M opts) (Opt.n opts) (Opt.l opts)
    (Opt.s opts) (Opt.nolatex opts) (Opt.f opts) true (Opt.keys opts)
    (Opt.style opts).

(** ** Static boilerplate and [main] *)

(** [print_notice]: what it prints. *)
Definition print_notice : list string :=
  [ "%                **** IMPORTANT NOTICE *****";
    "% This LaTeX file was automatically generated by ProTeX (Python version)";
    "% Any changes made to this file will likely be lost next time";
    "% it is regenerated from its source. Send questions to joao.gerd@inpe.br" ++ nl ].

(** [print_preamble(custom_style)]: an empty style is falsy, like [None]. *)
Definition print_preamble (custom_style : option string) : list string :=
  ["%------------------------ PREAMBLE --------------------------"]
  +++ match custom_style with
      | Some st =>
          if is_empty st then ["\documentclass[11pt]{article}"]
          else [ "\documentclass[11pt]{" ++ st ++ "}";
                 "\usepackage{" ++ st ++ "}" ]
      | None => ["\documentclass[11pt]{article}"]
      end
  +++ [ "\usepackage{amsmath}";
        "\usepackage{epsfig}";
        "\usepackage{minted}";
        "\textheight     9in";
        "\topmargin      0pt";
        "\headsep        1cm";
        "\headheight     0pt";
        "\textwidth      6in";
        "\oddsidemargin  0in";
        "\evensidemargin 0in";
        "\marginparpush  0pt";
        "\pagestyle{myheadings}";
        "\markboth{}{}";
        "%-------------------------------------------------------------";
        "\setlength{\parskip}{0pt}";
        "\setlength{\parindent}{0pt}";
        "\setlength{\baselineskip}{11pt}" ].

(** [print_macros]: what it prints. *)
Definition print_macros : list string :=
  [ nl ++ "%--------------------- SHORT-HAND MACROS ----------------------";
    "\def\be{\begin{equation}}";
    "\def\ee{\end{equation}}";
    "\def\bea{\begin{eqnarray}}";
    "\def\eea{\end{eqnarray}}";
    "\def\bi{\begin{itemize}}";
    "\def\ei{\end{itemize}}";
    "\def\bn{\begin{enumerate}}";
    "\def\en{\end{enumerate}}";
    "\def\bd{\begin{description}}";
    "\def\ed{\end{description}}";
    "\def\({\left (}";
    "\def\){\right )}";
    "\def\[{\left [}";
    "\def\]{\right ]}";
    "\def\<{\left \langle}";
    "\def\>{\right \rangle}";
    "\def\cI{{\cal I}}";
    "\def\diag{\mathop{\rm diag}}";
    "\def\tr{\mathop{\rm tr}}";
    "%-------------------------------------------------------------" ].

(** [next((code for code in language_info if getattr(opts, code)), 'F')]:
    the first code of the table, in its order, whose switch is set;
    [is_set code] is [getattr(opts, code)]. *)
Definition select_language (is_set : string -> bool) : string :=
  match find (fun entry => is_set (fst entry)) language_info with
  | Some entry => fst entry
  | None => "F"
  end.

(** What reading an input yields: the lines read, and the error that ends
    the reading when it fails after them ([UnicodeDecodeError], [OSError];
    its text), [None] when the end of the input is reached. *)
Record Stream : Type := mkStream {
  st_lines : list string;
  st_error : option string
}.

(** What [main] finds outside: standard input, the stream of each file that
    can be opened ([None]: [open] raises), and the text of
    [datetime.now()] at the k-th call of [process_file].  Standard output
    is taken to accept every line. *)
Record World : Type := mkWorld {
  stdin : Stream;
  open_file : string -> option Stream;
  now : nat -> string
}.

(** The exceptions of [main]: those of the engine, the [OSError] of
    [open], and the error raised by the iteration over an input. *)
Inductive main_exn : Type :=
| EngineError (e : exn)
| FileError (filename : string)
| ReadError (filename : string) (msg : string).

(** [process_file] on an input that may fail while it is read: when the
    reading fails, the loop [for line in f] has processed the lines read
    before, and the exception leaves [process_file] there, after the page
    heading and what those lines printed. *)
Definition process_stream (input : Stream) (filename file_date : string)
    (state : State) (tokens : Tokens) (lang : string) (opts : Opt.t)
    : (main_exn + State) * list string :=
  match st_error input with
  | None =>
      match process_file (st_lines input) filename file_date state tokens
              lang opts with
      | (inl e, out) => (inl (EngineError e), out)
      | (inr state', out) => (inr state', out)
      end
  | Some msg =>
      match (if negb (Opt.g opts || Opt.M opts)
             then match pct_format markboth_template
                          [file_basename_of filename; file_date] with
                  | inl e => inl e
                  | inr text => inr [text]
                  end
             else inr []) with
      | inl e => (inl (EngineError e), [])
      | inr out0 =>
          match get_language_info lang "lang" with
          | inl e => (inl (EngineError e), out0)
          | inr lang_name =>
              match process_lines opts tokens lang_name
                      (file_basename_of filename) state (st_lines input) with
              | (inl e, out) => (inl (EngineError e), out0 +++ out)
              | (inr _, out) => (inl (ReadError filename msg), out0 +++ out)
              end
          end
      end
  end.

(** Standard input once it has been iterated over to its end. *)
Definition exhausted : Stream := {| st_lines := []; st_error := None |}.

(** The loop [for filename in files] of [main] with the acquisition of the
    input: [input] is what standard input still holds, [k] counts the calls
    of [process_file]. *)
Fixpoint main_loop (w : World) (files : list string) (k : nat)
    (input : Stream) (state : State) (tokens : Tokens) (lang : string)
    (opts : Opt.t) : (main_exn + State) * list string :=
  match files with
  | [] => (inr state, [])
  | filename :: rest =>
      if (filename =? "-") || (filename =? EmptyString) then
        match process_stream input filename (now w k) state tokens lang opts with
        | (inl e, out) => (inl e, out)
        | (inr state', out) =>
            let (r, out') :=
              main_loop w rest (S k) exhausted state' tokens lang opts in
            (r, out +++ out')
        end
      else
        match open_file w filename with
        | None => (inl (FileError filename), [])
        | Some f =>
            match process_stream f filename (now w k) state tokens lang opts with
            | (inl e, out) => (inl e, out)
            | (inr state', out) =>
                let (r, out') :=
                  main_loop w rest (S k) input state' tokens lang opts in
                (r, out +++ out')
            end
        end
  end.

(** [main] after the parsing of the command line: [opts] holds the parsed
    switches the engine reads, [is_set] the language switches and
    [files_arg] the positional arguments ([opts.files]). *)
Definition main (w : World) (opts : Opt.t) (is_set : string -> bool)
    (files_arg : list string) : (main_exn + State) * list string :=
  let lang := select_language is_set in
  match get_language_tokens lang with
  | inl e => (inl (EngineError e), [])
  | inr tokens =>
      let files := match files_arg with [] => ["-"] | _ :: _ => files_arg end in
      let out0 :=
        print_notice
        +++ (if negb (Opt.bare opts) then print_preamble (Opt.style opts) else [])
        +++ print_macros in
      match main_loop w files 0 (stdin w) initial_state tokens lang opts with
      | (inl e, out) => (inl e, out0 +++ out)
      | (inr state, out) =>
          (inr state,
           out0 +++ out
           +++ (if negb (Opt.bare opts) then ["\end{document}"] else []))
      end
  end.

(** ** Further notions used in the statements *)

(** The line has a token at the marker position. *)
Definition has_marker (tokens : Tokens) (line0 : string) : bool :=
  match marker_of tokens line0 with
  | Some _ => true
  | None => false
  end.

(** What a line of a raw source region prints: itself without its trailing
    blanks, or nothing when it has no token at the marker position. *)
Definition listing_of (tokens : Tokens) (line0 : string) : list string :=
  if has_marker tokens line0 then [raw_of line0] else [].

(** What a row of an open resource table prints. *)
Definition row_of (tokens : Tokens) (line0 : string) : list string :=
  if has_marker tokens line0 then process_resource_line (stripped_of line0)
  else [].

(** The marker token of the line is not the resource-end marker. *)
Definition not_eor (tokens : Tokens) (line0 : string) : bool :=
  match marker_of tokens line0 with
  | Some m => negb (m =? eor tokens)
  | None => true
  end.

(** The escape of one character by [.replace("_", "\\_")]. *)
Definition escape_char (c : ascii) : string :=
  if Ascii.eqb c "_"%char then "\_" else String c EmptyString.

Fixpoint escape_chars (s : string) : string :=
  match s with
  | EmptyString => EmptyString
  | String c s' => escape_char c ++ escape_chars s'
  end.

(** The number of underscores of a string. *)
Fixpoint underscores (s : string) : nat :=
  match s with
  | EmptyString => 0
  | String c s' => (if Ascii.eqb c "_"%char then 1 else 0) + underscores s'
  end.

(** All the roles of a token dict. *)
Definition all_roles : list Role :=
  [ RComment; RBop; REop; RBoi; REoi; RBoc; REoc; RBoe; REoe;
    RBor; REor; RBopi; REopi; RIiro; RCro; RProgram ].

(** The updates of the state that one iteration of the loop can make, read
    off the branches of [process_file]: [line_effect opts lang_name state
    state'] lists them with the flag each one depends on. *)
Inductive line_effect (opts : Opt.t) (lang_name : string) (state : State) :
    State -> Prop :=
| E_same : line_effect opts lang_name state state
| E_resource (b : bool) : line_effect opts lang_name state (set_resource b state)
| E_intro (b : bool) : line_effect opts lang_name state (set_intro b state)
| E_title (t : string) :
    intro state = true ->
    line_effect opts lang_name state (set_tpage true (set_title t state))
| E_author (t : string) :
    intro state = true ->
    line_effect opts lang_name state (set_tpage true (set_author t state))
| E_affiliation (t : string) :
    intro state = true ->
    line_effect opts lang_name state (set_tpage true (set_affiliation t state))
| E_date (t : string) :
    intro state = true ->
    line_effect opts lang_name state (set_tpage true (set_doc_date t state))
| E_introduction :
    intro state = true ->
    line_effect opts lang_name state (fst (do_beg state (Opt.bare opts)))
| E_open_prologue :
    line_effect opts lang_name state (fst (open_prologue opts state))
| E_prologue_off : line_effect opts lang_name state (set_prologue false state)
| E_name :
    prologue state = true ->
    line_effect opts lang_name state (set_have_name true state)
| E_name_first :
    prologue state = true ->
    line_effect opts lang_name state
      (set_not_first true (set_have_name true state))
| E_description :
    prologue state = true ->
    line_effect opts lang_name state
      (set_have_desc true (set_verb (Opt.nolatex opts) state))
| E_keyword :
    prologue state = true ->
    line_effect opts lang_name state (set_verb true state)
| E_close :
    line_effect opts lang_name state (set_prologue false (set_verb false state))
| E_boc :
    Opt.s opts = false ->
    line_effect opts lang_name state (fst (do_boc state lang_name))
| E_eoc : line_effect opts lang_name state (fst (do_eoc state))
| E_boe :
    line_effect opts lang_name state
      (set_source false
         (set_verb false (set_prologue true (set_first false state)))).

(** A world for the examples: no file can be opened. *)
Definition empty_world : World :=
  {| stdin := exhausted; open_file := fun _ => None; now := fun _ => "today" |}.

(** An input is read to its end and holds plain lines only. *)
Definition readable_plain (tokens : Tokens) (input : Stream) : Prop :=
  st_error input = None
  /\ forallb (plain_line tokens) (st_lines input) = true.




(** * Properties *)

(** ** Generic facts *)

Lemma nth_error_some_nth (l : list string) (k : nat) (m d : string) :
  nth_error l k = Some m -> (length l <=? k)%nat = false /\ nth k l d = m.
Proof.
  revert k; induction l as [|x l IH]; intros [|k] H; simpl in *;
    try discriminate.
  - inversion H; auto.
  - apply IH in H. exact H.
Qed.

Lemma nth_error_none_length (l : list string) (k : nat) :
  nth_error l k = None -> (length l <=? k)%nat = true.
Proof.
  intro H. apply Nat.leb_le. apply nth_error_None. exact H.
Qed.

(** A line with a token at the marker position goes through
    [process_fields], and [fields[mi]] is that token. *)
Lemma process_line_marker opts tokens lang_name fb state line0 m :
  marker_of tokens line0 = Some m ->
  process_line opts tokens lang_name fb state line0 =
    process_fields opts tokens lang_name fb state (raw_of line0)
      (stripped_of line0) (fields_of line0)
      (marker_index tokens (fields_of line0))
  /\ nth (marker_index tokens (fields_of line0)) (fields_of line0) EmptyString = m.
Proof.
  unfold marker_of, process_line. intro H.
  destruct (nth_error_some_nth _ _ _ EmptyString H) as [Hlen Hnth].
  rewrite Hlen. split; [reflexivity | exact Hnth].
Qed.

(** A line without one is skipped. *)
Lemma process_line_skipped opts tokens lang_name fb state line0 :
  marker_of tokens line0 = None ->
  process_line opts tokens lang_name fb state line0 = (inr state, []).
Proof.
  unfold marker_of, process_line. intro H.
  rewrite (nth_error_none_length _ _ H). reflexivity.
Qed.

(** The token dicts of the supported languages. *)
Lemma supported_tokens (code : string) (tokens : Tokens) :
  get_language_tokens code = inr tokens ->
  In tokens (map tokens_of_symbol ["!"; "--"; "//"; "#"; "*"]).
Proof.
  unfold get_language_tokens, get_language_info, language_info, lookup.
  repeat match goal with
         | |- context [if String.eqb code ?k then _ else _] =>
             destruct (String.eqb code k)
         end;
    simpl; intro H; inversion H; subst; simpl; tauto.
Qed.

(** ** C4: the marker vocabulary resolver *)

(** Claim C4.  For every language code: when the code is one of the
    supported ones, its comment symbol is the one of its entry in the
    language table (an exclamation mark for F, two dashes for A, two
    slashes for C, a hash for S and P, a star for G), and
    [get_language_tokens] returns a dict in which every role (the comment
    symbol itself, prologue, internal prologue, introduction, code,
    example, resource begin/end and the three routine-keyword roles) holds
    that symbol followed by the role's fixed suffix; otherwise it raises
    the invalid-language-code [ValueError], the program's unknown-language
    error. *)
Theorem C4_marker_vocabulary (code : string) :
  if mem code supported_codes then
    exists info tokens,
      lookup code language_info = Some info
      /\ In (code, li_comment info)
           [ ("F", "!"); ("A", "--"); ("C", "//"); ("S", "#"); ("G", "*");
             ("P", "#") ]
      /\ get_language_info code "comment" = inr (li_comment info)
      /\ get_language_tokens code = inr tokens
      /\ forall r : Role, token tokens r = li_comment info ++ role_suffix r
  else
    get_language_tokens code
    = inl (ValueError ("Invalid language code: '" ++ code ++ "'")).
Proof.
  unfold supported_codes, mem, existsb.
  unfold get_language_tokens, get_language_info, language_info, lookup.
  repeat match goal with
         | |- context [String.eqb code ?k || _] =>
             let E := fresh "E" in
             destruct (String.eqb code k) eqn:E;
             [apply String.eqb_eq in E; subst code |]
         end;
    simpl; try reflexivity;
    (eexists; eexists; split; [reflexivity |]);
    (split; [simpl; tauto |]);
    (split; [reflexivity | split; [reflexivity |]]);
    intros []; reflexivity.
Qed.

(** ** Resource-table mode (C6, C10) *)

(** What one iteration does while the resource flag is set. *)
Lemma resource_mode_line opts tokens lang_name fb state line0 :
  resource state = true ->
  process_line opts tokens lang_name fb state line0 =
    match marker_of tokens line0 with
    | None => (inr state, [])
    | Some m =>
        if m =? eor tokens then (inr (set_resource false state), [])
        else (inr state, process_resource_line (stripped_of line0))
    end.
Proof.
  intro Hres.
  destruct (marker_of tokens line0) as [m|] eqn:Hm.
  - destruct (process_line_marker opts tokens lang_name fb state line0 m Hm)
      as [-> Hnth].
    unfold process_fields. rewrite Hres, Hnth.
    destruct (m =? eor tokens); reflexivity.
  - apply process_line_skipped; exact Hm.
Qed.

(** Claim C6, as the code has it.  While the resource flag is set, a line
    that has a token at the marker position (it is not blank and not the
    bare comment symbol alone) and whose marker token is not the
    resource-end marker is handled as a comma-separated row and by nothing
    else: the state is left as it is, and with at least four
    comma-separated parts the line prints one table row made of the first
    four parts, each stripped of surrounding blanks, followed by a rule;
    with fewer parts it prints the line itself, stripped of the blanks
    around it. *)
Theorem C6_resource_rows opts tokens lang_name fb state line0 m :
  resource state = true ->
  marker_of tokens line0 = Some m ->
  m <> eor tokens ->
  exists out,
    process_line opts tokens lang_name fb state line0 = (inr state, out)
    /\ (forall p0 p1 p2 p3 rest,
          map strip (split_on ","%char (stripped_of line0))
          = p0 :: p1 :: p2 :: p3 :: rest ->
          out = [ "\makebox[1.0in][l]{" ++ p0 ++ "} & " ++
                  "\makebox[3.5in][l]{" ++ p1 ++ "} & " ++
                  "\makebox[1.0in][l]{" ++ p2 ++ "} & " ++
                  "\makebox[1.0in][l]{" ++ p3 ++ "} \\";
                  "\hline" ])
    /\ (length (split_on ","%char (stripped_of line0)) < 4 ->
        out = [stripped_of line0]).
Proof.
  intros Hres Hm Hne.
  rewrite (resource_mode_line opts tokens lang_name fb state line0 Hres), Hm.
  destruct (m =? eor tokens) eqn:E.
  - apply String.eqb_eq in E. contradiction.
  - eexists; split; [reflexivity | split].
    + intros p0 p1 p2 p3 rest Hparts.
      unfold process_resource_line. rewrite Hparts. reflexivity.
    + intro Hlen. unfold process_resource_line.
      rewrite length_map.
      destruct (Nat.leb_spec 4 (length (split_on ","%char (stripped_of line0))));
        [lia | reflexivity].
Qed.

Lemma C6_resource_rows_witness :
  exists out,
    process_line default_opts fortran_tokens "fortran" "a.f90"
      (set_resource true initial_state) "  pi , ratio, 1 ,3.14, x"
    = (inr (set_resource true initial_state), out)
    /\ (forall p0 p1 p2 p3 rest,
          map strip (split_on ","%char (stripped_of "  pi , ratio, 1 ,3.14, x"))
          = p0 :: p1 :: p2 :: p3 :: rest ->
          out = [ "\makebox[1.0in][l]{" ++ p0 ++ "} & " ++
                  "\makebox[3.5in][l]{" ++ p1 ++ "} & " ++
                  "\makebox[1.0in][l]{" ++ p2 ++ "} & " ++
                  "\makebox[1.0in][l]{" ++ p3 ++ "} \\";
                  "\hline" ])
    /\ (length (split_on ","%char (stripped_of "  pi , ratio, 1 ,3.14, x")) < 4 ->
        out = [stripped_of "  pi , ratio, 1 ,3.14, x"]).
Proof.
  apply (C6_resource_rows default_opts fortran_tokens "fortran" "a.f90"
           (set_resource true initial_state) "  pi , ratio, 1 ,3.14, x" "pi").
  - reflexivity.
  - vm_compute; reflexivity.
  - vm_compute; discriminate.
Defined.

(** Claim C6 as stated fails on a line made of the bare comment symbol: it
    is not empty, it is not the resource-end marker, as a row it has fewer
    than four parts and would be printed as it is; the loop skips it before
    it looks at the resource flag and prints nothing.  (A short row that is
    printed loses the blanks around it.) *)
Lemma C6_bare_comment_line_not_a_row :
  resource (set_resource true initial_state) = true
  /\ stripped_of "!" = "!"
  /\ "!" <> eor fortran_tokens
  /\ process_resource_line (stripped_of "!") = ["!"]
  /\ process_line default_opts fortran_tokens "fortran" "a.f90"
       (set_resource true initial_state) "!"
     = (inr (set_resource true initial_state), [])
  /\ process_line default_opts fortran_tokens "fortran" "a.f90"
       (set_resource true initial_state) "   pi, ratio  "
     = (inr (set_resource true initial_state), ["pi, ratio"]).
Proof.
  repeat split; try (vm_compute; reflexivity).
  vm_compute; discriminate.
Qed.

(** Claim C10.  While the resource flag is set, one iteration of the loop
    on any line raises nothing and leaves every other field of the state as
    it was (intro, prologue, first, source, verb, the document-begun and
    not-first flags, the title-page fields and the [have_*] tracking); the
    resource flag itself is cleared only when the marker token of the line
    is the resource-end marker. *)
Theorem C10_resource_mode_frame opts tokens lang_name fb state line0 :
  resource state = true ->
  exists state' out,
    process_line opts tokens lang_name fb state line0 = (inr state', out)
    /\ intro state' = intro state
    /\ prologue state' = prologue state
    /\ first state' = first state
    /\ source state' = source state
    /\ verb state' = verb state
    /\ tpage state' = tpage state
    /\ begdoc state' = begdoc state
    /\ not_first state' = not_first state
    /\ have_name state' = have_name state
    /\ have_desc state' = have_desc state
    /\ have_intf state' = have_intf state
    /\ have_hist state' = have_hist state
    /\ name_is state' = name_is state
    /\ title state' = title state
    /\ author state' = author state
    /\ affiliation state' = affiliation state
    /\ doc_date state' = doc_date state
    /\ (state' = state
        \/ (state' = set_resource false state
            /\ marker_of tokens line0 = Some (eor tokens))).
Proof.
  intro Hres.
  rewrite (resource_mode_line opts tokens lang_name fb state line0 Hres).
  destruct (marker_of tokens line0) as [m|] eqn:Hm.
  - destruct (m =? eor tokens) eqn:E.
    + apply String.eqb_eq in E. subst m.
      eexists; eexists; split; [reflexivity |].
      simpl. repeat (split; [reflexivity |]). right; split; reflexivity.
    + eexists; eexists; split; [reflexivity |].
      repeat (split; [reflexivity |]). left; reflexivity.
  - eexists; eexists; split; [reflexivity |].
    repeat (split; [reflexivity |]). left; reflexivity.
Qed.

Lemma C10_resource_mode_frame_witness :
  exists state' out,
    process_line default_opts fortran_tokens "fortran" "a.f90"
      (set_resource true initial_state) "!EOR" = (inr state', out)
    /\ intro state' = intro (set_resource true initial_state)
    /\ prologue state' = prologue (set_resource true initial_state)
    /\ first state' = first (set_resource true initial_state)
    /\ source state' = source (set_resource true initial_state)
    /\ verb state' = verb (set_resource true initial_state)
    /\ tpage state' = tpage (set_resource true initial_state)
    /\ begdoc state' = begdoc (set_resource true initial_state)
    /\ not_first state' = not_first (set_resource true initial_state)
    /\ have_name state' = have_name (set_resource true initial_state)
    /\ have_desc state' = have_desc (set_resource true initial_state)
    /\ have_intf state' = have_intf (set_resource true initial_state)
    /\ have_hist state' = have_hist (set_resource true initial_state)
    /\ name_is state' = name_is (set_resource true initial_state)
    /\ title state' = title (set_resource true initial_state)
    /\ author state' = author (set_resource true initial_state)
    /\ affiliation state' = affiliation (set_resource true initial_state)
    /\ doc_date state' = doc_date (set_resource true initial_state)
    /\ (state' = set_resource true initial_state
        \/ (state' = set_resource false (set_resource true initial_state)
            /\ marker_of fortran_tokens "!EOR" = Some (eor fortran_tokens))).
Proof.
  apply (C10_resource_mode_frame default_opts fortran_tokens "fortran" "a.f90"
           (set_resource true initial_state) "!EOR").
  reflexivity.
Defined.

(** ** Lines that reach the later branches *)

Lemma mem_cons_false (m x : string) (l : list string) :
  mem m (x :: l) = false -> (m =? x) = false /\ mem m l = false.
Proof.
  unfold mem; simpl. intro H. apply orb_false_iff in H. exact H.
Qed.

Ltac split_mem H :=
  unfold mem in H; simpl in H;
  repeat (let E := fresh "E" in
          apply orb_false_iff in H; destruct H as [E H]).

(** Outside every region (no resource table, introduction, prologue or raw
    source open), a plain line prints nothing and changes nothing. *)
Lemma idle_plain_line opts tokens lang_name fb state line0 :
  resource state = false -> intro state = false ->
  prologue state = false -> source state = false ->
  plain_line tokens line0 = true ->
  process_line opts tokens lang_name fb state line0 = (inr state, []).
Proof.
  intros Hres Hintro Hpro Hsrc Hplain. unfold plain_line in Hplain.
  destruct (marker_of tokens line0) as [m|] eqn:Hm.
  - apply negb_true_iff in Hplain.
    unfold structural_markers, early_markers in Hplain.
    split_mem Hplain.
    destruct (process_line_marker opts tokens lang_name fb state line0 m Hm)
      as [-> Hnth].
    unfold process_fields, intro_stage, prologue_stage.
    rewrite Hnth, Hres, Hintro, Hpro, Hsrc.
    repeat match goal with E : (m =? _) = false |- _ => rewrite E; clear E end.
    reflexivity.
  - apply process_line_skipped; exact Hm.
Qed.

Lemma idle_plain_lines opts tokens lang_name fb state body :
  resource state = false -> intro state = false ->
  prologue state = false -> source state = false ->
  forallb (plain_line tokens) body = true ->
  process_lines opts tokens lang_name fb state body = (inr state, []).
Proof.
  intros Hres Hintro Hpro Hsrc.
  induction body as [|line0 body IH]; simpl; intro Hall.
  - reflexivity.
  - apply andb_true_iff in Hall. destruct Hall as [H1 H2].
    rewrite (idle_plain_line opts tokens lang_name fb state line0
               Hres Hintro Hpro Hsrc H1).
    rewrite (IH H2). reflexivity.
Qed.

Lemma process_lines_app opts tokens lang_name fb state l1 l2 state1 out1 :
  process_lines opts tokens lang_name fb state l1 = (inr state1, out1) ->
  process_lines opts tokens lang_name fb state (l1 +++ l2) =
    (fst (process_lines opts tokens lang_name fb state1 l2),
     out1 +++ snd (process_lines opts tokens lang_name fb state1 l2)).
Proof.
  revert state out1.
  induction l1 as [|x l1 IH]; simpl; intros state out1 H.
  - inversion H; subst.
    destruct (process_lines opts tokens lang_name fb state1 l2); reflexivity.
  - destruct (process_line opts tokens lang_name fb state x) as [[e|st] o].
    + discriminate.
    + destruct (process_lines opts tokens lang_name fb st l1) as [r o'] eqn:E.
      inversion H; subst.
      rewrite (IH st o' E).
      destruct (process_lines opts tokens lang_name fb state1 l2); simpl.
      rewrite app_assoc. reflexivity.
Qed.

(** The markers of a supported language are pairwise distinct where the
    loop compares them. *)
Ltac supported_cases H :=
  apply supported_tokens in H; simpl in H;
  repeat (destruct H as [H | H]; [symmetry in H; subst |]); try contradiction.

(** ** C3: internal prologues in internal mode *)

(** The internal-prologue begin marker in internal mode: the prologue flag
    is cleared and nothing is printed. *)
Lemma bopi_internal_line opts code tokens lang_name fb state line0 :
  get_language_tokens code = inr tokens ->
  Opt.internal opts = true ->
  resource state = false -> intro state = false ->
  marker_of tokens line0 = Some (bopi tokens) ->
  process_line opts tokens lang_name fb state line0
  = (inr (set_prologue false state), []).
Proof.
  intros Htok Hint Hres Hintro Hm.
  destruct (process_line_marker opts tokens lang_name fb state line0 _ Hm)
    as [-> Hnth].
  unfold process_fields, intro_stage. rewrite Hnth, Hres, Hintro, Hint.
  supported_cases Htok; reflexivity.
Qed.

(** Claim C3, as the code has it.  In internal mode, when no resource
    table, introduction or raw source region is open, an internal-prologue
    begin line only clears the prologue flag, and the lines that follow, up
    to and including the internal-prologue end line, print nothing and leave
    the state alone as long as none of them is itself a structural marker
    line: the content of the internal prologue is left out of the output,
    it is not passed through. *)
Theorem C3_internal_prologue_omitted opts code tokens lang_name fb state
    bopi_line body eopi_line :
  get_language_tokens code = inr tokens ->
  Opt.internal opts = true ->
  resource state = false -> intro state = false -> source state = false ->
  marker_of tokens bopi_line = Some (bopi tokens) ->
  forallb (plain_line tokens) body = true ->
  marker_of tokens eopi_line = Some (eopi tokens) ->
  process_lines opts tokens lang_name fb state
    (bopi_line :: body +++ [eopi_line])
  = (inr (set_prologue false state), []).
Proof.
  intros Htok Hint Hres Hintro Hsrc Hb Hbody He.
  simpl.
  rewrite (bopi_internal_line opts code tokens lang_name fb state bopi_line
             Htok Hint Hres Hintro Hb).
  rewrite idle_plain_lines; try assumption; try reflexivity.
  rewrite forallb_app, Hbody. simpl.
  unfold plain_line. rewrite He.
  supported_cases Htok; reflexivity.
Qed.

Lemma C3_internal_prologue_omitted_witness :
  process_lines (with_internal default_opts) fortran_tokens "fortran" "a.f90"
    initial_state ("!BOPI" :: ["! internal note"; "  call helper(x)"] +++ ["!EOPI"])
  = (inr (set_prologue false initial_state), []).
Proof.
  apply (C3_internal_prologue_omitted (with_internal default_opts) "F"
           fortran_tokens "fortran" "a.f90" initial_state
           "!BOPI" ["! internal note"; "  call helper(x)"] "!EOPI");
    vm_compute; reflexivity.
Defined.

(** Claim C3 as stated fails: in internal mode the lines between the
    internal-prologue markers are not passed through, the run prints
    nothing at all for them. *)
Lemma C3_internal_lines_not_passed_through :
  Opt.internal (with_internal default_opts) = true
  /\ process_lines (with_internal default_opts) fortran_tokens "fortran"
       "a.f90" initial_state ["!BOPI"; "! internal note"; "!EOPI"]
     = (inr initial_state, [])
  /\ ~ In "internal note"
       (snd (process_lines (with_internal default_opts) fortran_tokens
               "fortran" "a.f90" initial_state
               ["!BOPI"; "! internal note"; "!EOPI"])).
Proof.
  split; [reflexivity | split; [vm_compute; reflexivity |]].
  vm_compute. tauto.
Qed.

(** ** C8: shut-up mode *)

Lemma find_none_existsb (p : string -> bool) (l : list string) :
  existsb p l = false -> find p l = None.
Proof.
  induction l as [|x l IH]; simpl; intro H; [reflexivity |].
  apply orb_false_iff in H. destruct H as [Hx Hl].
  rewrite Hx. exact (IH Hl).
Qed.

(** A line that is no field line and whose marker token is no prologue end
    marker leaves the prologue block without a [continue]. *)
Lemma prologue_stage_falls_through opts tokens lang_name fb state line0 :
  field_line opts line0 = false ->
  mem (nth (marker_index tokens (fields_of line0)) (fields_of line0) EmptyString)
      [eop tokens; eopi tokens] = false ->
  prologue_stage opts tokens lang_name fb state (stripped_of line0)
    (fields_of line0) (marker_index tokens (fields_of line0)) = None.
Proof.
  unfold field_line, primary_line, prologue_marker, prologue_stage.
  intros Hfield Hend.
  destruct (prologue state); [| reflexivity].
  destruct (lookup _ (get_prologue_processors opts)); [discriminate |].
  simpl in Hfield. apply orb_false_iff in Hfield. destruct Hfield as [Hd Hk].
  rewrite Hd, (find_none_existsb _ _ Hk), Hend. reflexivity.
Qed.

(** Claim C8, as the code has it.  In shut-up mode, when no resource table
    and no introduction is open, a code-begin marker line that is not also
    a field line only clears the prologue flag and prints nothing, so no
    verbatim region opens; and when no raw source region is open either,
    the plain lines that follow it print nothing and leave the state
    alone. *)
Theorem C8_shut_up_mode opts code tokens lang_name fb state boc_line body :
  get_language_tokens code = inr tokens ->
  Opt.s opts = true ->
  resource state = false -> intro state = false ->
  marker_of tokens boc_line = Some (boc tokens) ->
  field_line opts boc_line = false ->
  process_line opts tokens lang_name fb state boc_line
  = (inr (set_prologue false state), [])
  /\ (source state = false ->
      forallb (plain_line tokens) body = true ->
      process_lines opts tokens lang_name fb state (boc_line :: body)
      = (inr (set_prologue false state), [])).
Proof.
  intros Htok Hs Hres Hintro Hm Hfield.
  assert (Hline : process_line opts tokens lang_name fb state boc_line
                  = (inr (set_prologue false state), [])).
  { destruct (process_line_marker opts tokens lang_name fb state boc_line _ Hm)
      as [-> Hnth].
    unfold process_fields, intro_stage.
    rewrite (prologue_stage_falls_through opts tokens lang_name fb state
               boc_line Hfield).
    - rewrite Hnth, Hres, Hintro, Hs.
      supported_cases Htok; reflexivity.
    - rewrite Hnth. supported_cases Htok; reflexivity. }
  split; [exact Hline |].
  intros Hsrc Hbody. simpl. rewrite Hline.
  rewrite idle_plain_lines; try assumption; reflexivity.
Qed.

Lemma C8_shut_up_mode_witness :
  process_line (with_s default_opts) fortran_tokens "fortran" "a.f90"
    (set_prologue true initial_state) "!BOC"
  = (inr (set_prologue false (set_prologue true initial_state)), [])
  /\ process_lines (with_s default_opts) fortran_tokens "fortran" "a.f90"
       (set_prologue true initial_state)
       ("!BOC" :: ["  x = 1"; "! a comment"; "  call f(x)"])
     = (inr (set_prologue false (set_prologue true initial_state)), []).
Proof.
  destruct (C8_shut_up_mode (with_s default_opts) "F" fortran_tokens "fortran"
              "a.f90" (set_prologue true initial_state) "!BOC"
              ["  x = 1"; "! a comment"; "  call f(x)"]) as [H1 H2];
    try (vm_compute; reflexivity).
  split; [exact H1 | apply H2; vm_compute; reflexivity].
Defined.

(** Claim C8 as stated fails while an introduction is open: in shut-up
    mode the source line between the code markers is printed as
    introduction text. *)
Lemma C8_source_line_printed_in_introduction :
  Opt.s (with_s default_opts) = true
  /\ process_lines (with_s default_opts) fortran_tokens "fortran" "a.f90"
       initial_state ["!BOI"; "!BOC"; "x = 1"; "!EOC"]
     = (inr (set_intro true initial_state), ["x = 1"; end_code_banner])
  /\ In "x = 1"
       (snd (process_lines (with_s default_opts) fortran_tokens "fortran"
               "a.f90" initial_state ["!BOI"; "!BOC"; "x = 1"; "!EOC"])).
Proof.
  split; [reflexivity | split; [vm_compute; reflexivity |]].
  vm_compute. tauto.
Qed.

(** ** C5: closing what is already closed *)

(** Claim C5, as the code has it.  With no resource table and no
    introduction open: a line whose marker token is the code-end marker,
    met while the verbatim flag is down (and which is not a field line of an
    open prologue), prints no verbatim-end delimiter, but it does print the
    END CODE banner again, and it clears the source flag; a line whose
    marker token is a prologue-end marker, met while no prologue is open,
    closes nothing and changes nothing: it prints nothing, unless a raw
    source region is open, where it is copied like any other source
    line. *)
Theorem C5_closing_closed_regions opts code tokens lang_name fb state line0 :
  get_language_tokens code = inr tokens ->
  resource state = false -> intro state = false ->
  (marker_of tokens line0 = Some (eoc tokens) ->
   verb state = false -> field_line opts line0 = false ->
   process_line opts tokens lang_name fb state line0
   = (inr (set_source false state), [end_code_banner]))
  /\ (marker_of tokens line0 = Some (eop tokens)
      \/ marker_of tokens line0 = Some (eopi tokens) ->
      prologue state = false ->
      process_line opts tokens lang_name fb state line0
      = (inr state, if source state then [raw_of line0] else [])).
Proof.
  intros Htok Hres Hintro. split.
  - intros Hm Hverb Hfield.
    destruct (process_line_marker opts tokens lang_name fb state line0 _ Hm)
      as [-> Hnth].
    unfold process_fields, intro_stage.
    rewrite (prologue_stage_falls_through opts tokens lang_name fb state
               line0 Hfield).
    + rewrite Hnth, Hres, Hintro. unfold do_eoc. rewrite Hverb.
      supported_cases Htok; reflexivity.
    + rewrite Hnth. supported_cases Htok; reflexivity.
  - intros Hm Hpro.
    assert (Hgo : forall m, marker_of tokens line0 = Some m ->
                  mem m (structural_markers tokens) = false ->
                  process_line opts tokens lang_name fb state line0
                  = (inr state, if source state then [raw_of line0] else [])).
    { intros m Hm' Hmem.
      destruct (process_line_marker opts tokens lang_name fb state line0 m Hm')
        as [-> Hnth].
      unfold structural_markers, early_markers in Hmem. split_mem Hmem.
      unfold process_fields, intro_stage, prologue_stage.
      rewrite Hnth, Hres, Hintro, Hpro.
      repeat match goal with E : (m =? _) = false |- _ => rewrite E; clear E end.
      destruct (source state); reflexivity. }
    destruct Hm as [Hm | Hm]; apply (Hgo _ Hm);
      supported_cases Htok; reflexivity.
Qed.

Lemma C5_closing_closed_regions_witness :
  process_line default_opts fortran_tokens "fortran" "a.f90" initial_state "!EOC"
  = (inr (set_source false initial_state), [end_code_banner])
  /\ process_line default_opts fortran_tokens "fortran" "a.f90" initial_state "!EOP"
     = (inr initial_state, []).
Proof.
  split.
  - apply (C5_closing_closed_regions default_opts "F" fortran_tokens "fortran"
             "a.f90" initial_state "!EOC"); vm_compute; reflexivity.
  - apply (C5_closing_closed_regions default_opts "F" fortran_tokens "fortran"
             "a.f90" initial_state "!EOP");
      try (vm_compute; reflexivity).
    left; vm_compute; reflexivity.
Defined.

(** Claim C5 as stated fails for the code-end marker: met when no
    verbatim or source region is open it is not a no-op on the output, the
    END CODE banner is printed once more. *)
Lemma C5_code_end_prints_banner_again :
  verb initial_state = false /\ source initial_state = false
  /\ process_line default_opts fortran_tokens "fortran" "a.f90"
       initial_state "!EOC"
     = (inr initial_state, [end_code_banner])
  /\ snd (process_lines default_opts fortran_tokens "fortran" "a.f90"
            initial_state ["!BOC"; "x = 1"; "!EOC"; "!EOC"])
     = [ nl ++ " %------------------ START CODE ------------------%";
         "\begin{minted}[breaklines,breakafter=-+*/&]{fortran}";
         "x = 1";
         "\end{minted}";
         end_code_banner;
         end_code_banner ].
Proof.
  repeat split; vm_compute; reflexivity.
Qed.

(** ** C2: the description marker *)

(** Claim C2, as the code has it.  Inside an open prologue (no resource
    table and no introduction open), on a line that holds the description
    marker and is taken neither by an earlier structural marker nor by a
    primary field marker: when a verbatim block is open it is closed and
    the description label and an empty line are printed (without an open
    verbatim block no label is printed); then, when no-LaTeX mode is ON, a
    verbatim block is opened, and when it is OFF the tokens after the
    marker token (after a leading lone exclamation mark, if any) are printed
    as running text and the verbatim flag stays down; the description is
    recorded as present. *)
Theorem C2_description_marker opts tokens lang_name fb state line0 m :
  resource state = false -> intro state = false -> prologue state = true ->
  marker_of tokens line0 = Some m ->
  mem m (early_markers tokens) = false ->
  primary_line opts line0 = false ->
  str_in "!DESCRIPTION:" (stripped_of line0) = true ->
  process_line opts tokens lang_name fb state line0
  = (inr (set_have_desc true (set_verb (Opt.nolatex opts) state)),
     (if verb state
      then [minted_end; "{\sf DESCRIPTION:\\ }"; EmptyString]
      else [])
     +++ (if Opt.nolatex opts
          then [minted_begin "breaklines" lang_name]
          else [join " "
                  (skipn ((if nth 0 (split_ws None (stripped_of line0)) EmptyString
                              =? "!" then 1 else 0) + 1)
                     (split_ws None (stripped_of line0)))])).
Proof.
  intros Hres Hintro Hpro Hm Hmem Hprim Hdesc.
  destruct (process_line_marker opts tokens lang_name fb state line0 m Hm)
    as [-> Hnth].
  unfold early_markers in Hmem. split_mem Hmem.
  unfold primary_line, prologue_marker in Hprim.
  unfold process_fields, intro_stage, prologue_stage.
  rewrite Hnth, Hres, Hintro, Hpro.
  repeat match goal with E : (m =? _) = false |- _ => rewrite E; clear E end.
  simpl andb. cbv iota.
  destruct (lookup _ (get_prologue_processors opts)); [discriminate |].
  rewrite Hdesc.
  destruct state; simpl in *.
  destruct verb0, (Opt.nolatex opts); reflexivity.
Qed.

Lemma C2_description_marker_witness :
  process_line default_opts fortran_tokens "fortran" "a.f90"
    (set_verb true (set_prologue true initial_state))
    "! !DESCRIPTION: does a thing"
  = (inr (set_have_desc true
            (set_verb (Opt.nolatex default_opts)
               (set_verb true (set_prologue true initial_state)))),
     (if verb (set_verb true (set_prologue true initial_state))
      then [minted_end; "{\sf DESCRIPTION:\\ }"; EmptyString]
      else [])
     +++ (if Opt.nolatex default_opts
          then [minted_begin "breaklines" "fortran"]
          else [join " "
                  (skipn ((if nth 0 (split_ws None
                                       (stripped_of "! !DESCRIPTION: does a thing"))
                                EmptyString
                              =? "!" then 1 else 0) + 1)
                     (split_ws None (stripped_of "! !DESCRIPTION: does a thing")))])).
Proof.
  apply (C2_description_marker default_opts fortran_tokens "fortran" "a.f90"
           (set_verb true (set_prologue true initial_state))
           "! !DESCRIPTION: does a thing" "!DESCRIPTION:");
    vm_compute; reflexivity.
Defined.

(** Claim C2 as stated fails: with no-LaTeX mode off and no verbatim block
    open, a description line prints neither the description label nor a
    verbatim-begin delimiter; its text is printed as running text and the
    verbatim flag stays down. *)
Lemma C2_description_without_label_or_verbatim :
  Opt.nolatex default_opts = false
  /\ prologue (set_prologue true initial_state) = true
  /\ process_line default_opts fortran_tokens "fortran" "a.f90"
       (set_prologue true initial_state) "!DESCRIPTION: does a thing"
     = (inr (set_have_desc true (set_prologue true initial_state)),
        ["does a thing"])
  /\ verb (set_have_desc true (set_prologue true initial_state)) = false.
Proof.
  repeat split; vm_compute; reflexivity.
Qed.

(** ** C7: configurable keyword markers *)

Lemma find_first_match (p : string -> bool) (before after : list string)
    (key : string) :
  forallb (fun k => negb (p k)) before = true ->
  p key = true ->
  find p (before +++ key :: after) = Some key.
Proof.
  induction before as [|x before IH]; simpl; intros Hb Hk.
  - rewrite Hk. reflexivity.
  - apply andb_true_iff in Hb. destruct Hb as [Hx Hb].
    apply negb_true_iff in Hx. rewrite Hx. exact (IH Hb Hk).
Qed.

(** Claim C7, as the code has it.  Inside an open prologue (no resource
    table and no introduction open), on a line taken neither by an earlier
    structural marker, nor by a primary field marker, nor by the
    description marker: the first keyword of the configured list that
    occurs in the line wins; an open verbatim block is closed (when none is
    open a vertical skip is printed instead); the label, the keyword
    without its first character, is printed as emphasized text when the
    line holds one of the words USES, INPUT, OUTPUT, PARAMETERS, VALUE or
    ARGUMENTS, and as a plain label otherwise (so for the interface
    keyword); and a new verbatim block is opened. *)
Theorem C7_keyword_markers opts tokens lang_name fb state line0 m
    before key after :
  resource state = false -> intro state = false -> prologue state = true ->
  marker_of tokens line0 = Some m ->
  mem m (early_markers tokens) = false ->
  primary_line opts line0 = false ->
  str_in "!DESCRIPTION:" (stripped_of line0) = false ->
  Opt.keys opts = before +++ key :: after ->
  forallb (fun k => negb (str_in k (stripped_of line0))) before = true ->
  str_in key (stripped_of line0) = true ->
  process_line opts tokens lang_name fb state line0
  = (inr (set_verb true state),
     [ if verb state then minted_end else nl ++ "\bigskip";
       (if existsb (fun x => str_in x (stripped_of line0)) emphasis_words
        then "{\em " else "{\sf ") ++ drop 1 key ++ "}";
       minted_begin "breaklines" lang_name ]).
Proof.
  intros Hres Hintro Hpro Hm Hmem Hprim Hdesc Hkeys Hbefore Hkey.
  destruct (process_line_marker opts tokens lang_name fb state line0 m Hm)
    as [-> Hnth].
  unfold early_markers in Hmem. split_mem Hmem.
  unfold primary_line, prologue_marker in Hprim.
  unfold process_fields, intro_stage, prologue_stage.
  rewrite Hnth, Hres, Hintro, Hpro.
  repeat match goal with E : (m =? _) = false |- _ => rewrite E; clear E end.
  simpl andb. cbv iota.
  destruct (lookup _ (get_prologue_processors opts)); [discriminate |].
  rewrite Hdesc, Hkeys.
  rewrite (find_first_match (fun k => str_in k (stripped_of line0))
             before after key Hbefore Hkey).
  destruct (existsb (fun x => str_in x (stripped_of line0)) emphasis_words);
    destruct state; simpl in *; destruct verb0; reflexivity.
Qed.

Lemma C7_keyword_markers_witness :
  process_line default_opts fortran_tokens "fortran" "a.f90"
    (set_verb true (set_prologue true initial_state)) "! !INPUT PARAMETERS:"
  = (inr (set_verb true (set_verb true (set_prologue true initial_state))),
     [ if verb (set_verb true (set_prologue true initial_state))
       then minted_end else nl ++ "\bigskip";
       (if existsb (fun x => str_in x (stripped_of "! !INPUT PARAMETERS:"))
             emphasis_words
        then "{\em " else "{\sf ") ++ drop 1 "!INPUT PARAMETERS:" ++ "}";
       minted_begin "breaklines" "fortran" ]).
Proof.
  apply (C7_keyword_markers default_opts fortran_tokens "fortran" "a.f90"
           (set_verb true (set_prologue true initial_state))
           "! !INPUT PARAMETERS:" "!INPUT"
           [ "!INTERFACE:"; "!USES:"; "!PUBLIC TYPES:"; "!PRIVATE TYPES:";
             "!PUBLIC MEMBER FUNCTIONS:"; "!PRIVATE MEMBER FUNCTIONS:";
             "!PUBLIC DATA MEMBERS:"; "!PARAMETERS:"; "!ARGUMENTS:";
             "!DEFINED PARAMETERS:" ]
           "!INPUT PARAMETERS:"
           [ "!INPUT/OUTPUT PARAMETERS:";
             "!OUTPUT PARAMETERS:"; "!RETURN VALUE:"; "!REVISION HISTORY:";
             "!BUGS:"; "!SEE ALSO:"; "!SYSTEM ROUTINES:"; "!FILES USED:";
             "!REMARKS:"; "!TO DO:"; "!CALLING SEQUENCE:"; "!AUTHOR:";
             "!CALLED FROM:"; "!LOCAL VARIABLES:" ]);
    vm_compute; reflexivity.
Defined.

(** Claim C7 as stated fails for the interface keyword: its label is
    printed as a plain label, not as emphasized text (and, no verbatim
    block being open, a vertical skip is printed first). *)
Lemma C7_interface_label_is_plain :
  In "!INTERFACE:" (Opt.keys default_opts)
  /\ process_line default_opts fortran_tokens "fortran" "a.f90"
       (set_prologue true initial_state) "!INTERFACE:"
     = (inr (set_verb true (set_prologue true initial_state)),
        [ nl ++ "\bigskip";
          "{\sf INTERFACE:}";
          "\begin{minted}[breaklines]{fortran}" ])
  /\ ~ In "{\em INTERFACE:}"
       (snd (process_line default_opts fortran_tokens "fortran" "a.f90"
               (set_prologue true initial_state) "!INTERFACE:")).
Proof.
  split; [left; reflexivity | split; [vm_compute; reflexivity |]].
  vm_compute. intros [H | [H | [H | H]]]; try discriminate H; exact H.
Qed.

(** ** C1: the function marker and the source-file suppression flag *)

(** Under the suppression flag [process_generic] prints the function
    heading without the file name, whatever the fields, the file and the
    state. *)
Lemma function_heading_under_suppression fields fb opts state :
  Opt.f opts = true ->
  process_generic fields function_template fb opts state
  = (inr (set_not_first true (set_have_name true state)),
     (if Opt.n opts && not_first state then ["\newpage"] else [])
     +++ ["\subsubsection{" ++ replace "_" "\_" (join " " fields) ++ "}" ++ nl]).
Proof.
  intro Hf. unfold process_generic. rewrite Hf.
  generalize (replace "_" "\_" (join " " fields)); intro content.
  reflexivity.
Qed.

(** Claim C1 fails on the code.  With the source-file suppression flag set,
    a [!FUNCTION:] marker line inside an open prologue prints a subsubsection
    heading without the base name of the source file: [process_generic]
    runs every template it receives through [get_format] again, so the
    template the table keeps whole for the function marker loses its
    source-file part at the call; the routine marker prints the same
    heading.  Without the flag both headings hold the file name. *)
Theorem C1_function_heading_loses_source_file :
  Opt.f (with_f default_opts) = true
  /\ file_basename_of "src/m_time.f90" = "m\_time.f90"
  /\ process_lines (with_f default_opts) fortran_tokens "fortran"
       (file_basename_of "src/m_time.f90") initial_state
       ["!BOP"; "! !FUNCTION: get_time"; "! !ROUTINE: get_time"; "!EOP"]
     = (inr (set_not_first true
               (set_have_name true (set_begdoc true (set_first false initial_state)))),
        [ "\begin{document}"; "\tableofcontents"; "\newpage";
          "\section{Routine/Function Prologues} \label{app:ProLogues}";
          "\subsubsection{get\_time}" ++ nl;
          "\subsubsection{get\_time}" ++ nl ])
  /\ str_in "m\_time.f90" ("\subsubsection{get\_time}" ++ nl) = false
  /\ snd (process_lines default_opts fortran_tokens "fortran"
            (file_basename_of "src/m_time.f90") initial_state
            ["!BOP"; "! !FUNCTION: get_time"; "! !ROUTINE: get_time"; "!EOP"])
     = [ "\begin{document}"; "\tableofcontents"; "\newpage";
         "\section{Routine/Function Prologues} \label{app:ProLogues}";
         "\subsubsection{get\_time (Source File: m\_time.f90)}" ++ nl;
         "\subsubsection{get\_time (Source File: m\_time.f90)}" ++ nl ].
Proof.
  repeat split; vm_compute; reflexivity.
Qed.

(** ** The loop raises nothing *)

(** No template of the dispatch table can make the formatting fail, with
    or without the source-file suppression flag. *)
Lemma process_generic_total fields template fb opts state :
  In template [ get_format module_template (Opt.f opts);
                get_format program_template (Opt.f opts);
                get_format routine_template (Opt.f opts);
                function_template ] ->
  exists state' out,
    process_generic fields template fb opts state = (inr state', out).
Proof.
  unfold process_generic.
  generalize (replace "_" "\_" (join " " fields)); intro content.
  generalize (if Opt.n opts && not_first state then ["\newpage"] else []);
    intro out1.
  simpl In.
  destruct (Opt.f opts);
    intros [H | [H | [H | [H | []]]]]; subst template;
    eexists; eexists; vm_compute; reflexivity.
Qed.

Lemma label_heading_total short_label content :
  exists text,
    pct_format subsubsection_label_template [short_label; content] = inr text.
Proof.
  eexists. vm_compute. reflexivity.
Qed.

Lemma processors_total opts marker handler fields fb state :
  lookup marker (get_prologue_processors opts) = Some handler ->
  exists state' out, handler fields fb opts state = (inr state', out).
Proof.
  unfold get_prologue_processors, lookup.
  repeat match goal with
         | |- context [if String.eqb marker ?k then _ else _] =>
             destruct (String.eqb marker k)
         end;
    intro H; inversion H; subst; clear H;
    try (apply process_generic_total; simpl; tauto);
    unfold process_internal, process_overloaded, process_contained;
    match goal with
    | |- context [pct_format subsubsection_label_template [?a; ?b]] =>
        destruct (label_heading_total a b) as [text ->]
    end;
    eexists; eexists; reflexivity.
Qed.

Lemma process_line_total opts tokens lang_name fb state line0 :
  exists state' out,
    process_line opts tokens lang_name fb state line0 = (inr state', out).
Proof.
  unfold process_line.
  destruct (length (fields_of line0) <=? marker_index tokens (fields_of line0))%nat;
    [eexists; eexists; reflexivity |].
  unfold process_fields, intro_stage, prologue_stage, ok.
  repeat match goal with
         | |- context [lookup ?m (get_prologue_processors opts)] =>
             let E := fresh "E" in
             destruct (lookup m (get_prologue_processors opts))
               as [handler|] eqn:E;
             [ destruct (processors_total opts m handler
                           (pop_marker (marker_index tokens (fields_of line0))
                              (fields_of line0)) fb state E)
                 as (s1 & o1 & ->) |]
         | |- context [find ?p ?l] => destruct (find p l)
         | |- context [if ?b then _ else _] => destruct b
         | |- context [let (_, _) := ?x in _] => destruct x
         end;
    eexists; eexists; reflexivity.
Qed.

Lemma process_lines_total opts tokens lang_name fb f :
  forall state,
  exists state' out,
    process_lines opts tokens lang_name fb state f = (inr state', out).
Proof.
  induction f as [|line0 f IH]; simpl; intro state.
  - eexists; eexists; reflexivity.
  - destruct (process_line_total opts tokens lang_name fb state line0)
      as (s1 & o1 & ->).
    destruct (IH s1) as (s2 & o2 & ->).
    eexists; eexists; reflexivity.
Qed.

Lemma lang_name_total lang :
  mem lang supported_codes = true ->
  exists lang_name, get_language_info lang "lang" = inr lang_name.
Proof.
  unfold supported_codes, mem, existsb, get_language_info, language_info, lookup.
  repeat match goal with
         | |- context [String.eqb lang ?k || _] =>
             destruct (String.eqb lang k)
         end;
    simpl; intro H; try discriminate H; eexists; reflexivity.
Qed.

Lemma process_file_total f filename file_date state tokens lang opts :
  mem lang supported_codes = true ->
  exists state' out,
    process_file f filename file_date state tokens lang opts = (inr state', out).
Proof.
  intro Hl. unfold process_file.
  destruct (lang_name_total lang Hl) as [lang_name ->].
  assert (Hm : exists out0,
             (if negb (Opt.g opts || Opt.M opts)
              then match pct_format markboth_template
                           [file_basename_of filename; file_date] with
                   | inl e => inl e
                   | inr text => inr [text]
                   end
              else inr []) = inr out0 :> exn + list string).
  { destruct (negb (Opt.g opts || Opt.M opts)); eexists;
      [vm_compute |]; reflexivity. }
  destruct Hm as [out0 ->].
  destruct (process_lines_total opts tokens lang_name
              (file_basename_of filename) f state) as (s1 & o1 & ->).
  destruct (source s1); [destruct (do_eoc s1) |]; eexists; eexists; reflexivity.
Qed.

Lemma process_files_total files tokens lang opts :
  mem lang supported_codes = true ->
  forall state,
  exists state' out,
    process_files files state tokens lang opts = (inr state', out).
Proof.
  intro Hl. induction files as [|file files IH]; simpl; intro state.
  - eexists; eexists; reflexivity.
  - destruct (process_file_total (sf_lines file) (sf_name file) (sf_date file)
                state tokens lang opts Hl) as (s1 & o1 & ->).
    destruct (IH s1) as (s2 & o2 & ->).
    eexists; eexists; reflexivity.
Qed.

(** ** C9: the document-begun flag across lines and files *)

Section DocumentBegun.

(** No branch of the loop ever lowers the flag: only [do_beg] writes it,
    and it writes [True]. *)

Lemma do_beg_after_begun state bare :
  begdoc state = true -> do_beg state bare = (state, []).
Proof.
  intro H. unfold do_beg. rewrite H. destruct bare; reflexivity.
Qed.

Lemma do_beg_keeps_begdoc state bare :
  begdoc state = true -> begdoc (fst (do_beg state bare)) = true.
Proof.
  intro H. rewrite (do_beg_after_begun state bare H). exact H.
Qed.











End DocumentBegun.








(** Two files in one run: the state reached at the end of the first file
    has the flag up, and the second file's prologue prints a separator
    where the first printed the document-begin sequence. *)
Example two_files_one_document_begin :
  process_files
    [ mkSourceFile "a.f90" "d1" ["!BOP"; "! !ROUTINE: a"; "!EOP"];
      mkSourceFile "b.f90" "d2" ["!BOP"; "! !ROUTINE: b"; "!EOP"] ]
    initial_state fortran_tokens "F" default_opts
  = (inr (set_not_first true
            (set_have_name true (set_begdoc true (set_first false initial_state)))),
     [ nl ++ "\markboth{Left}{Source File: a.f90,  Date: d1}" ++ nl;
       "\begin{document}"; "\tableofcontents"; "\newpage";
       "\section{Routine/Function Prologues} \label{app:ProLogues}";
       "\subsubsection{a (Source File: a.f90)}" ++ nl;
       EmptyString;
       nl ++ "\markboth{Left}{Source File: b.f90,  Date: d2}" ++ nl;
       nl ++ "\mbox{}\hrulefill\";
       "\subsubsection{b (Source File: b.f90)}" ++ nl;
       EmptyString ]).
Proof. vm_compute; reflexivity. Qed.

(** * Further properties of the code *)

(** ** The language table *)

(** X1.  [get_language_info] checks the code before the kind of
    information: an unsupported code raises the invalid-code error whatever
    [info_type] is; a supported code with an [info_type] other than
    comment, lang or name raises the invalid-info-type error; otherwise the
    call returns a non-empty text. *)
Theorem X1_get_language_info_errors (code info_type : string) :
  if mem code supported_codes then
    if mem info_type ["comment"; "lang"; "name"] then
      exists v, get_language_info code info_type = inr v /\ v <> EmptyString
    else
      get_language_info code info_type
      = inl (ValueError ("Invalid info_type: '" ++ info_type
                         ++ "', must be 'comment', 'lang' or 'name'"))
  else
    get_language_info code info_type
    = inl (ValueError ("Invalid language code: '" ++ code ++ "'")).
Proof.
  unfold supported_codes, mem, existsb.
  unfold get_language_info, language_info, lookup, mem, existsb.
  repeat match goal with
         | |- context [String.eqb code ?k || _] =>
             destruct (String.eqb code k) eqn:?
         end;
    simpl; try reflexivity;
    destruct (String.eqb info_type "comment") eqn:Ec; simpl;
    try (eexists; split; [reflexivity | discriminate]);
    destruct (String.eqb info_type "lang") eqn:El; simpl;
    try (eexists; split; [reflexivity | discriminate]);
    destruct (String.eqb info_type "name") eqn:En; simpl;
    try (eexists; split; [reflexivity | discriminate]);
    reflexivity.
Qed.

Lemma append_inj_l (s a b : string) : s ++ a = s ++ b -> a = b.
Proof.
  induction s as [|c s IH]; simpl; intro H; [exact H |].
  inversion H. auto.
Qed.

Lemma append_empty_r (s : string) : s ++ EmptyString = s.
Proof.
  induction s as [|c s IH]; simpl; [reflexivity | rewrite IH; reflexivity].
Qed.

Lemma token_is_symbol_suffix (symbol : string) (r : Role) :
  token (tokens_of_symbol symbol) r = symbol ++ role_suffix r.
Proof.
  destruct r; simpl; try reflexivity.
  symmetry; apply append_empty_r.
Qed.

Lemma role_suffixes_distinct : NoDup (map role_suffix all_roles).
Proof.
  unfold all_roles; simpl.
  repeat (constructor;
          [ simpl; intro H;
            repeat (destruct H as [H | H]; [discriminate H |]); exact H |]).
  constructor.
Qed.

Lemma NoDup_map_injective (f : string -> string) (l : list string) :
  (forall a b, f a = f b -> a = b) -> NoDup l -> NoDup (map f l).
Proof.
  intros Hinj Hl. induction Hl as [|x l Hx Hl IH]; simpl; constructor.
  - intro Hin. apply in_map_iff in Hin. destruct Hin as (y & Hy & Hyl).
    apply Hinj in Hy. subst y. contradiction.
  - exact IH.
Qed.

(** X2.  Whatever the comment symbol, the sixteen entries of the token
    dict are pairwise distinct: no marker can be taken for another one or
    for the bare comment symbol. *)
Theorem X2_tokens_pairwise_distinct (symbol : string) :
  NoDup (map (token (tokens_of_symbol symbol)) all_roles).
Proof.
  rewrite (map_ext _ (fun r => symbol ++ role_suffix r)
             (token_is_symbol_suffix symbol)).
  rewrite <- (map_map role_suffix (fun x => symbol ++ x)).
  apply NoDup_map_injective.
  - intros a b H. exact (append_inj_l symbol a b H).
  - exact role_suffixes_distinct.
Qed.

(** ** Underscore escaping *)

Lemma replace_go_escape (s : string) :
  replace_go "_" "\_" 0 s = escape_chars s.
Proof.
  induction s as [|c s IH]; [reflexivity |].
  cbn [replace_go String.prefix String.length Nat.pred escape_chars].
  unfold escape_char.
  assert (Hp : String.prefix EmptyString s = true) by (destruct s; reflexivity).
  destruct (ascii_dec "_" c) as [E | E].
  - subst c. rewrite Hp, IH. reflexivity.
  - assert (Ec : Ascii.eqb c "_" = false)
      by (apply Ascii.eqb_neq; congruence).
    rewrite Ec, IH. reflexivity.
Qed.

Lemma escape_chars_app (a b : string) :
  escape_chars (a ++ b) = escape_chars a ++ escape_chars b.
Proof.
  induction a as [|c a IH]; simpl; [reflexivity |].
  rewrite IH. unfold escape_char.
  destruct (Ascii.eqb c "_"); reflexivity.
Qed.

Lemma escape_chars_length (s : string) :
  String.length (escape_chars s) = String.length s + underscores s.
Proof.
  induction s as [|c s IH]; simpl; [reflexivity |].
  unfold escape_char. destruct (Ascii.eqb c "_"); simpl; rewrite IH; lia.
Qed.

(** X3.  The escaping [.replace("_", "\\_")] applied to headings and file
    names works character by character: every underscore, and nothing
    else, gets a backslash in front of it; so it distributes over
    concatenation and lengthens the text by the number of its
    underscores. *)
Theorem X3_underscore_escaping (a b : string) :
  replace "_" "\_" a = escape_chars a
  /\ replace "_" "\_" (a ++ b) = replace "_" "\_" a ++ replace "_" "\_" b
  /\ String.length (replace "_" "\_" a) = String.length a + underscores a.
Proof.
  unfold replace. rewrite !replace_go_escape.
  repeat split.
  - apply escape_chars_app.
  - apply escape_chars_length.
Qed.

(** ** The handlers with a short label *)

Lemma label_heading_format (short_label content : string) :
  pct_format subsubsection_label_template [short_label; content]
  = inr ("\subsubsection [" ++ short_label ++ "]{" ++ content ++ "}" ++ nl).
Proof. reflexivity. Qed.

Lemma second_word_or_empty (words : list string) :
  (if (1 <? length words)%nat then nth 1 words EmptyString else EmptyString)
  = nth 1 words EmptyString.
Proof.
  destruct words as [|w0 [|w1 ws]]; reflexivity.
Qed.

Lemma rest_words_or_empty (words : list string) :
  (if (1 <? length words)%nat then join " " (skipn 1 words) else EmptyString)
  = join " " (skipn 1 words).
Proof.
  destruct words as [|w0 [|w1 ws]]; reflexivity.
Qed.

(** X4.  The handlers of [!IROUTINE:], [!IFUNCTION:], [!CROUTINE:] and
    [!IIROUTINE:] never raise; each prints exactly one heading, whose
    optional short label is the second word of the escaped content (all the
    words after the first for [!IIROUTINE:]; empty when there is none),
    and records only that a name was seen: unlike the generic markers they
    print no page break under the new-page option and leave the not-first
    flag alone. *)
Theorem X4_label_handlers (opts : Opt.t) (marker : string)
    (fields : list string) (fb : string) (state : State) :
  mem marker ["!IROUTINE:"; "!IFUNCTION:"; "!CROUTINE:"; "!IIROUTINE:"] = true ->
  exists handler,
    lookup marker (get_prologue_processors opts) = Some handler
    /\ handler fields fb opts state
       = (inr (set_have_name true state),
          [ "\subsubsection ["
            ++ (if marker =? "!IIROUTINE:"
                then join " "
                       (skipn 1 (split_ws None (replace "_" "\_" (join " " fields))))
                else nth 1 (split_ws None (replace "_" "\_" (join " " fields)))
                       EmptyString)
            ++ "]{" ++ replace "_" "\_" (join " " fields) ++ "}" ++ nl ]).
Proof.
  unfold mem, existsb. intro H.
  repeat (apply orb_true_iff in H; destruct H as [H | H]);
    try discriminate H;
    apply String.eqb_eq in H; subst marker;
    eexists; (split; [reflexivity |]);
    unfold process_internal, process_contained, process_overloaded;
    rewrite label_heading_format;
    rewrite ?second_word_or_empty, ?rest_words_or_empty; reflexivity.
Qed.

Lemma X4_label_handlers_witness :
  exists handler,
    lookup "!IIROUTINE:" (get_prologue_processors default_opts) = Some handler
    /\ handler ["get_x"; "real"; "version"] "a.f90" default_opts initial_state
       = (inr (set_have_name true initial_state),
          [ "\subsubsection ["
            ++ (if "!IIROUTINE:" =? "!IIROUTINE:"
                then join " "
                       (skipn 1 (split_ws None
                                   (replace "_" "\_"
                                      (join " " ["get_x"; "real"; "version"]))))
                else nth 1 (split_ws None
                              (replace "_" "\_"
                                 (join " " ["get_x"; "real"; "version"])))
                       EmptyString)
            ++ "]{" ++ replace "_" "\_" (join " " ["get_x"; "real"; "version"])
            ++ "}" ++ nl ]).
Proof.
  apply (X4_label_handlers default_opts "!IIROUTINE:"
           ["get_x"; "real"; "version"] "a.f90" initial_state).
  reflexivity.
Defined.

(** ** What one line can do to the state *)

(** A handler of the dispatch table records the name and, for the generic
    markers, that a first heading was printed; nothing else. *)
Lemma processors_effect opts marker handler fields fb state :
  lookup marker (get_prologue_processors opts) = Some handler ->
  exists out,
    handler fields fb opts state = (inr (set_have_name true state), out)
    \/ handler fields fb opts state
       = (inr (set_not_first true (set_have_name true state)), out).
Proof.
  intro El.
  destruct (processors_total opts marker handler fields fb state El)
    as (s1 & o1 & Ht).
  revert El Ht. unfold get_prologue_processors, lookup.
  repeat match goal with
         | |- context [if String.eqb marker ?k then _ else _] =>
             destruct (String.eqb marker k)
         end;
    intro H; inversion H; subst; clear H;
    unfold process_generic, process_internal, process_overloaded,
      process_contained;
    match goal with
    | |- context [match ?x with inl _ => _ | inr _ => _ end] => destruct x
    end;
    intro Ht; try discriminate Ht;
    eexists; first [left; reflexivity | right; reflexivity].
Qed.

Lemma effect_eq opts lang_name state s1 s2 :
  line_effect opts lang_name state s1 -> s1 = s2 ->
  line_effect opts lang_name state s2.
Proof. intros H <-; exact H. Qed.

Ltac break_all :=
  repeat match goal with
         | H : context [match ?x with _ => _ end] |- _ =>
             let E := fresh "E" in destruct x eqn:E
         | H : (_, _) = (_, _) |- _ => inversion H; clear H; subst
         | H : Some _ = Some _ |- _ => inversion H; clear H; subst
         | H : None = Some _ |- _ => discriminate H
         | H : Some _ = None |- _ => discriminate H
         end.

(** Two updated states are equal: seen field by field. *)
Ltac state_eq :=
  unfold do_eoc, do_boc in *; break_all;
  repeat match goal with s : State |- _ => destruct s end;
  simpl in *; subst;
  repeat match goal with
         | E : ?x = _ |- context [?x] => rewrite E
         end;
  reflexivity.

Ltac intro_is_open :=
  match goal with
  | E : intro _ && _ = true |- _ =>
      apply andb_true_iff in E; exact (proj1 E)
  end.

Lemma intro_stage_effect opts lang_name state fields mi state' out :
  intro_stage opts state fields mi = Some (inr state', out) ->
  line_effect opts lang_name state state'.
Proof.
  unfold intro_stage, ok. intro H.
  destruct (intro state && (mi + 1 <? length fields)%nat) eqn:Ei;
    [| discriminate].
  apply andb_true_iff in Ei. destruct Ei as [Ei _].
  destruct (do_beg state (Opt.bare opts)) as [s1 o1] eqn:Eb.
  break_all; simpl;
    first [ apply E_title; exact Ei | apply E_author; exact Ei
          | apply E_affiliation; exact Ei | apply E_date; exact Ei
          | eapply effect_eq;
            [ apply E_introduction; exact Ei | rewrite Eb; reflexivity ] ].
Qed.

Lemma prologue_stage_effect opts tokens lang_name fb state line fields mi
    state' out :
  prologue_stage opts tokens lang_name fb state line fields mi
  = Some (inr state', out) ->
  line_effect opts lang_name state state'.
Proof.
  unfold prologue_stage, ok. intro H.
  destruct (prologue state) eqn:Ep; [| discriminate].
  destruct (lookup _ (get_prologue_processors opts)) as [handler|] eqn:El.
  - match type of H with
    | context [handler ?fs ?b ?o ?st] =>
        destruct (processors_effect o _ handler fs b st El) as [oh [Hh | Hh]];
        rewrite Hh in H; inversion H; subst
    end.
    + apply E_name; exact Ep.
    + apply E_name_first; exact Ep.
  - destruct (str_in "!DESCRIPTION:" line).
    + destruct (verb state) eqn:Ev, (Opt.nolatex opts) eqn:En;
        simpl in H; inversion H; subst;
        (eapply effect_eq; [apply E_description; exact Ep |]);
        rewrite En; destruct state; simpl in *; subst; reflexivity.
    + destruct (find _ (Opt.keys opts)).
      * destruct (verb state) eqn:Ev; simpl in H; inversion H; subst;
          (eapply effect_eq; [apply E_keyword; exact Ep |]);
          destruct state; simpl in *; subst; reflexivity.
      * destruct (mem _ _); [| discriminate].
        destruct (verb state) eqn:Ev; simpl in H; inversion H; subst;
          (eapply effect_eq; [apply E_close |]);
          destruct state; simpl in *; subst; reflexivity.
Qed.

(** Every line changes the state by one of the listed updates. *)
Lemma process_line_effect opts tokens lang_name fb state line0 state' out :
  process_line opts tokens lang_name fb state line0 = (inr state', out) ->
  line_effect opts lang_name state state'.
Proof.
  unfold process_line. intro H.
  destruct (length (fields_of line0) <=? marker_index tokens (fields_of line0))%nat.
  { unfold ok in H; inversion H; subst; apply E_same. }
  unfold process_fields in H.
  destruct (intro_stage opts state (fields_of line0)
              (marker_index tokens (fields_of line0))) as [ri|] eqn:Ei;
    [| destruct (prologue_stage opts tokens lang_name fb state
                   (stripped_of line0) (fields_of line0)
                   (marker_index tokens (fields_of line0))) as [rp|] eqn:Ep ];
    unfold ok in H;
    repeat match type of H with
           | context [if ?b then _ else _] =>
               let E := fresh "E" in destruct b eqn:E
           end;
    simpl in H;
    try (inversion H; subst;
         first [ apply E_same | apply E_resource | apply E_intro
               | apply E_open_prologue | apply E_prologue_off
               | apply E_eoc | apply E_boc; assumption
               | solve [ eapply effect_eq; [ apply E_boe | state_eq ] ]
               | solve [ eapply effect_eq; [ apply E_close | state_eq ] ] ]).
  - rewrite H in Ei.
    exact (intro_stage_effect opts lang_name state _ _ state' out Ei).
  - rewrite H in Ep.
    exact (prologue_stage_effect opts tokens lang_name fb state _ _ _
             state' out Ep).
Qed.

Lemma do_beg_state state bare :
  fst (do_beg state bare)
  = if negb bare && negb (begdoc state) then set_begdoc true state else state.
Proof.
  unfold do_beg. destruct bare, (negb (begdoc state)); reflexivity.
Qed.

Lemma do_eoc_state state :
  fst (do_eoc state) = set_source false (set_verb false state).
Proof.
  unfold do_eoc. destruct state; simpl. destruct verb0; reflexivity.
Qed.

Lemma open_prologue_state opts state :
  fst (open_prologue opts state)
  = set_missing
      (set_source false
         (set_verb false
            (set_prologue true
               (set_first false (fst (do_beg state (Opt.bare opts))))))).
Proof.
  unfold open_prologue, do_eoc, do_beg.
  destruct state; simpl.
  destruct source0, verb0, (Opt.bare opts), begdoc0; reflexivity.
Qed.

(** ** Properties kept along a whole run *)

Section RunInvariants.

Variables (opts : Opt.t) (tokens : Tokens) (lang : string).
Variable P : State -> Prop.
Hypothesis P_effect :
  forall lang_name state state',
    line_effect opts lang_name state state' -> P state -> P state'.

Lemma lines_preserve lang_name fb f :
  forall state state' out,
    process_lines opts tokens lang_name fb state f = (inr state', out) ->
    P state -> P state'.
Proof.
  induction f as [|line0 f IH]; simpl; intros state state' out H HP.
  - inversion H; subst; exact HP.
  - destruct (process_line opts tokens lang_name fb state line0)
      as [[e|st] o] eqn:E; [discriminate |].
    destruct (process_lines opts tokens lang_name fb st f) as [r o'] eqn:E'.
    inversion H; subst.
    apply (IH st state' o' E').
    exact (P_effect lang_name state st
             (process_line_effect opts tokens lang_name fb state line0 st o E)
             HP).
Qed.

Lemma file_preserves f filename file_date state state' out :
  process_file f filename file_date state tokens lang opts = (inr state', out) ->
  P state -> P state'.
Proof.
  unfold process_file. intros H HP.
  destruct (if negb (Opt.g opts || Opt.M opts) then _ else _) as [e|out0];
    [discriminate |].
  destruct (get_language_info lang "lang") as [e|lang_name]; [discriminate |].
  destruct (process_lines opts tokens lang_name (file_basename_of filename)
              state f) as [[e|state1] o] eqn:E; [discriminate |].
  pose proof (lines_preserve lang_name _ f state state1 o E HP) as H1.
  destruct (source state1).
  - pose proof (P_effect lang_name state1 _ (E_eoc opts lang_name state1) H1)
      as H2.
    destruct (do_eoc state1) as [s2 o2]. inversion H; subst. exact H2.
  - inversion H; subst. exact H1.
Qed.

Lemma files_preserve files :
  forall state state' out,
    process_files files state tokens lang opts = (inr state', out) ->
    P state -> P state'.
Proof.
  induction files as [|file files IH]; simpl; intros state state' out H HP.
  - inversion H; subst; exact HP.
  - destruct (process_file (sf_lines file) (sf_name file) (sf_date file)
                state tokens lang opts) as [[e|st] o] eqn:E; [discriminate |].
    destruct (process_files files st tokens lang opts) as [r o'] eqn:E'.
    inversion H; subst.
    exact (IH st state' o' E' (file_preserves _ _ _ state st o E HP)).
Qed.

(** With a supported language the run over the files ends normally, in a
    state where the property still holds. *)
Lemma run_preserves files state :
  mem lang supported_codes = true ->
  P state ->
  exists state' out,
    process_files files state tokens lang opts = (inr state', out)
    /\ P state'.
Proof.
  intros Hl HP.
  destruct (process_files_total files tokens lang opts Hl state)
    as (s1 & o1 & H).
  exists s1, o1. split; [exact H |].
  exact (files_preserve files state s1 o1 H HP).
Qed.

End RunInvariants.

(** X5.  A prologue and a raw source region are never open together:
    from a state where the two flags are not both up, every line, and
    every run over files in a supported language, ends normally in such a
    state again. *)
Theorem X5_prologue_and_source_exclusive opts tokens lang state :
  prologue state && source state = false ->
  (forall lang_name fb line0,
   exists state' out,
     process_line opts tokens lang_name fb state line0 = (inr state', out)
     /\ prologue state' && source state' = false)
  /\ (mem lang supported_codes = true ->
      forall files,
      exists state' out,
        process_files files state tokens lang opts = (inr state', out)
        /\ prologue state' && source state' = false).
Proof.
  assert (Heff : forall lang_name s s',
             line_effect opts lang_name s s' ->
             prologue s && source s = false ->
             prologue s' && source s' = false).
  { intros lang_name s s' He Hs.
    destruct He; try rewrite open_prologue_state; try rewrite do_eoc_state;
      try rewrite do_beg_state;
      try match goal with
          | |- context [if ?b then _ else _] => destruct b
          end;
      simpl; first [ exact Hs | reflexivity | apply andb_false_r
                   | rewrite H in Hs; exact Hs ]. }
  intro Hinv. split.
  - intros lang_name fb line0.
    destruct (process_line_total opts tokens lang_name fb state line0)
      as (s1 & o1 & H).
    exists s1, o1. split; [exact H |].
    exact (Heff lang_name state s1
             (process_line_effect opts tokens lang_name fb state line0 s1 o1 H)
             Hinv).
  - intros Hl files.
    exact (run_preserves opts tokens lang _ Heff files state Hl Hinv).
Qed.

Lemma X5_prologue_and_source_exclusive_witness :
  exists state' out,
    process_files
      [mkSourceFile "a.f90" "d" ["!BOP"; "!BOC"; "x = 1"; "!BOE"; "!EOC"]]
      initial_state fortran_tokens "F" default_opts = (inr state', out)
    /\ prologue state' && source state' = false.
Proof.
  destruct (X5_prologue_and_source_exclusive default_opts fortran_tokens "F"
              initial_state eq_refl) as [_ H].
  apply (H eq_refl).
Defined.

Ltac effect_cases He :=
  destruct He; try rewrite open_prologue_state; try rewrite do_eoc_state;
  try rewrite do_beg_state;
  try match goal with
      | |- context [if ?b then _ else _] => destruct b
      end;
  simpl.

(** X6.  Three flags only ever move one way during a run in a supported
    language, which always ends normally: the first-prologue flag, once
    down, stays down (the one-time section heading cannot come back), and
    the not-first and title-page flags, once up, stay up. *)
Theorem X6_one_way_flags opts tokens lang files state :
  mem lang supported_codes = true ->
  exists state' out,
    process_files files state tokens lang opts = (inr state', out)
    /\ (first state = false -> first state' = false)
    /\ (not_first state = true -> not_first state' = true)
    /\ (tpage state = true -> tpage state' = true).
Proof.
  intro Hl.
  apply (run_preserves opts tokens lang
           (fun s => (first state = false -> first s = false)
                     /\ (not_first state = true -> not_first s = true)
                     /\ (tpage state = true -> tpage s = true)));
    [| exact Hl | tauto].
  intros lang_name s s' He (H1 & H2 & H3).
  effect_cases He; repeat split; intros; auto.
Qed.

Lemma X6_one_way_flags_witness :
  exists state' out,
    process_files
      [mkSourceFile "a.f90" "d" ["!BOP"; "! !ROUTINE: a"; "!EOP"; "!BOP"; "!EOP"]]
      (set_first false initial_state) fortran_tokens "F" default_opts
    = (inr state', out)
    /\ (first (set_first false initial_state) = false -> first state' = false)
    /\ (not_first (set_first false initial_state) = true ->
        not_first state' = true)
    /\ (tpage (set_first false initial_state) = true -> tpage state' = true).
Proof.
  apply (X6_one_way_flags default_opts fortran_tokens "F"
           [mkSourceFile "a.f90" "d"
              ["!BOP"; "! !ROUTINE: a"; "!EOP"; "!BOP"; "!EOP"]]
           (set_first false initial_state)).
  reflexivity.
Defined.

(** X7.  In bare mode the document is never begun: [do_beg] prints
    nothing, and no run changes the document-begun flag. *)
Theorem X7_bare_mode_never_begins opts tokens lang files state :
  Opt.bare opts = true ->
  mem lang supported_codes = true ->
  do_beg state (Opt.bare opts) = (state, [])
  /\ exists state' out,
       process_files files state tokens lang opts = (inr state', out)
       /\ begdoc state' = begdoc state.
Proof.
  intros Hb Hl. split.
  - rewrite Hb. reflexivity.
  - apply (run_preserves opts tokens lang
             (fun s => begdoc s = begdoc state));
      [| exact Hl | reflexivity].
    intros lang_name s s' He Hs.
    destruct He; try rewrite open_prologue_state; try rewrite do_eoc_state;
      try rewrite do_beg_state; try rewrite Hb; simpl; exact Hs.
Qed.

Lemma X7_bare_mode_never_begins_witness :
  do_beg initial_state
    (Opt.bare (Opt.mk true false false false false false false false false
                 default_keys None))
  = (initial_state, [])
  /\ exists state' out,
       process_files
         [mkSourceFile "a.f90" "d" ["!BOP"; "! !ROUTINE: a"; "!EOP"]]
         initial_state fortran_tokens "F"
         (Opt.mk true false false false false false false false false
            default_keys None)
       = (inr state', out)
       /\ begdoc state' = begdoc initial_state.
Proof.
  apply (X7_bare_mode_never_begins
           (Opt.mk true false false false false false false false false
              default_keys None)
           fortran_tokens "F"
           [mkSourceFile "a.f90" "d" ["!BOP"; "! !ROUTINE: a"; "!EOP"]]
           initial_state); reflexivity.
Defined.

(** X8.  The tracking of the interface and history fields is never fed:
    no line raises [have_intf] or [have_hist] or writes a name into
    [name_is]; a run that starts with them at their initial values ends
    with them unchanged, whatever the input. *)
Theorem X8_unfed_tracking opts tokens lang files state :
  mem lang supported_codes = true ->
  have_intf state = false -> have_hist state = false ->
  name_is state = "UNKNOWN" ->
  exists state' out,
    process_files files state tokens lang opts = (inr state', out)
    /\ have_intf state' = false /\ have_hist state' = false
    /\ name_is state' = "UNKNOWN".
Proof.
  intros Hl H1 H2 H3.
  apply (run_preserves opts tokens lang
           (fun s => have_intf s = false /\ have_hist s = false
                     /\ name_is s = "UNKNOWN"));
    [| exact Hl | tauto].
  intros lang_name s s' He Hs.
  effect_cases He; tauto.
Qed.

Lemma X8_unfed_tracking_witness :
  exists state' out,
    process_files
      [mkSourceFile "a.f90" "d"
         ["!BOP"; "! !ROUTINE: a"; "! !INTERFACE:"; "! !REVISION HISTORY:"; "!EOP"]]
      initial_state fortran_tokens "F" default_opts
    = (inr state', out)
    /\ have_intf state' = false /\ have_hist state' = false
    /\ name_is state' = "UNKNOWN".
Proof.
  apply (X8_unfed_tracking default_opts fortran_tokens "F"
           [mkSourceFile "a.f90" "d"
              ["!BOP"; "! !ROUTINE: a"; "! !INTERFACE:";
               "! !REVISION HISTORY:"; "!EOP"]]
           initial_state); reflexivity.
Defined.

(** X9.  The title-page fields are written only while an introduction is
    open: outside one, no line changes the title, the author, the
    affiliation, the date or the title-page flag. *)
Theorem X9_title_page_only_in_introduction opts tokens lang_name fb state line0 :
  intro state = false ->
  exists state' out,
    process_line opts tokens lang_name fb state line0 = (inr state', out)
    /\ title state' = title state /\ author state' = author state
    /\ affiliation state' = affiliation state
    /\ doc_date state' = doc_date state /\ tpage state' = tpage state.
Proof.
  intro Hi.
  destruct (process_line_total opts tokens lang_name fb state line0)
    as (s1 & o1 & H).
  exists s1, o1. split; [exact H |].
  pose proof (process_line_effect opts tokens lang_name fb state line0 s1 o1 H)
    as He.
  effect_cases He; try congruence; repeat split; reflexivity.
Qed.

Lemma X9_title_page_only_in_introduction_witness :
  exists state' out,
    process_line default_opts fortran_tokens "fortran" "a.f90" initial_state
      "! x !TITLE: A title" = (inr state', out)
    /\ title state' = title initial_state
    /\ author state' = author initial_state
    /\ affiliation state' = affiliation initial_state
    /\ doc_date state' = doc_date initial_state
    /\ tpage state' = tpage initial_state.
Proof.
  apply (X9_title_page_only_in_introduction default_opts fortran_tokens
           "fortran" "a.f90" initial_state "! x !TITLE: A title").
  reflexivity.
Defined.

(** ** [process_file] as a whole *)

Lemma markboth_format (file_basename file_date : string) :
  pct_format markboth_template [file_basename; file_date]
  = inr (nl ++ "\markboth{Left}{Source File: " ++ file_basename
         ++ ",  Date: " ++ file_date ++ "}" ++ nl).
Proof. reflexivity. Qed.

Lemma unsupported_lang_error (lang info_type : string) :
  mem lang supported_codes = false ->
  get_language_info lang info_type
  = inl (ValueError ("Invalid language code: '" ++ lang ++ "'")).
Proof.
  unfold supported_codes, mem, existsb, get_language_info, language_info, lookup.
  repeat match goal with
         | |- context [String.eqb lang ?k || _] =>
             destruct (String.eqb lang k)
         end;
    simpl; intro H; try discriminate H; reflexivity.
Qed.

(** X10.  Called with an unsupported language code, [process_file] raises
    the invalid-code error before it reads a single line; by then the
    page-heading line of the file has already been printed (unless the GEOS
    or MAPL style is on). *)
Theorem X10_process_file_unsupported_language f filename file_date state tokens
    lang opts :
  mem lang supported_codes = false ->
  process_file f filename file_date state tokens lang opts
  = (inl (ValueError ("Invalid language code: '" ++ lang ++ "'")),
     if negb (Opt.g opts || Opt.M opts)
     then [ nl ++ "\markboth{Left}{Source File: " ++ file_basename_of filename
            ++ ",  Date: " ++ file_date ++ "}" ++ nl ]
     else []).
Proof.
  intro Hl. unfold process_file.
  rewrite markboth_format, (unsupported_lang_error lang "lang" Hl).
  destruct (negb (Opt.g opts || Opt.M opts)); reflexivity.
Qed.

Lemma X10_process_file_unsupported_language_witness :
  process_file ["!BOP"; "!EOP"] "a.f90" "today" initial_state fortran_tokens
    "X" default_opts
  = (inl (ValueError ("Invalid language code: '" ++ "X" ++ "'")),
     if negb (Opt.g default_opts || Opt.M default_opts)
     then [ nl ++ "\markboth{Left}{Source File: " ++ file_basename_of "a.f90"
            ++ ",  Date: " ++ "today" ++ "}" ++ nl ]
     else []).
Proof.
  apply (X10_process_file_unsupported_language ["!BOP"; "!EOP"] "a.f90" "today"
           initial_state fortran_tokens "X" default_opts).
  reflexivity.
Defined.

(** X11.  With a supported language [process_file] always ends normally.
    It prints the page-heading line (unless the GEOS or MAPL style is on),
    what the lines print, an empty line, and, when the last line leaves a
    raw source region open, the closing of that region: the verbatim-end
    delimiter if the verbatim flag is up, and the END CODE banner.  The
    state it returns always has the source flag down. *)
Theorem X11_process_file_end_of_file f filename file_date state tokens lang opts :
  mem lang supported_codes = true ->
  exists lang_name state1 out1,
    get_language_info lang "lang" = inr lang_name
    /\ process_lines opts tokens lang_name (file_basename_of filename) state f
       = (inr state1, out1)
    /\ process_file f filename file_date state tokens lang opts
       = (inr (if source state1
               then set_source false (set_verb false state1)
               else state1),
          (if negb (Opt.g opts || Opt.M opts)
           then [ nl ++ "\markboth{Left}{Source File: "
                  ++ file_basename_of filename
                  ++ ",  Date: " ++ file_date ++ "}" ++ nl ]
           else [])
          +++ out1 +++ [EmptyString]
          +++ (if source state1
               then (if verb state1 then [minted_end] else [])
                    +++ [end_code_banner]
               else []))
    /\ source (if source state1
               then set_source false (set_verb false state1)
               else state1) = false.
Proof.
  intro Hl.
  destruct (lang_name_total lang Hl) as [lang_name Hn].
  destruct (process_lines_total opts tokens lang_name
              (file_basename_of filename) f state) as (state1 & out1 & H1).
  exists lang_name, state1, out1.
  split; [exact Hn | split; [exact H1 | split]].
  - unfold process_file. rewrite markboth_format, Hn, H1.
    pose proof (do_eoc_state state1) as Hs.
    unfold do_eoc in *.
    destruct (negb (Opt.g opts || Opt.M opts)), (source state1),
      (verb state1); simpl in *; rewrite ?Hs; reflexivity.
  - destruct (source state1) eqn:E; [reflexivity | exact E].
Qed.


Lemma X11_process_file_end_of_file_witness :
  exists lang_name state1 out1,
    get_language_info "F" "lang" = inr lang_name
    /\ process_lines default_opts fortran_tokens lang_name
         (file_basename_of "a.f90") initial_state ["!BOC"; "x = 1"]
       = (inr state1, out1)
    /\ process_file ["!BOC"; "x = 1"] "a.f90" "today" initial_state
         fortran_tokens "F" default_opts
       = (inr (if source state1
               then set_source false (set_verb false state1)
               else state1),
          (if negb (Opt.g default_opts || Opt.M default_opts)
           then [ nl ++ "\markboth{Left}{Source File: "
                  ++ file_basename_of "a.f90"
                  ++ ",  Date: " ++ "today" ++ "}" ++ nl ]
           else [])
          +++ out1 +++ [EmptyString]
          +++ (if source state1
               then (if verb state1 then [minted_end] else [])
                    +++ [end_code_banner]
               else []))
    /\ source (if source state1
               then set_source false (set_verb false state1)
               else state1) = false.
Proof.
  apply (X11_process_file_end_of_file ["!BOC"; "x = 1"] "a.f90" "today"
           initial_state fortran_tokens "F" default_opts).
  reflexivity.
Defined.

(** ** Code listings and resource tables *)

Section Regions.

Variables (opts : Opt.t) (code : string) (tokens : Tokens)
  (lang_name fb : string).
Hypothesis tokens_supported : get_language_tokens code = inr tokens.

(** Inside a raw source region a plain line is copied without its trailing
    blanks; a line without a token at the marker position prints nothing. *)
Lemma source_region_line state line0 :
  resource state = false -> intro state = false ->
  prologue state = false -> source state = true ->
  plain_line tokens line0 = true ->
  process_line opts tokens lang_name fb state line0
  = (inr state, listing_of tokens line0).
Proof.
  intros Hres Hintro Hpro Hsrc Hplain.
  unfold plain_line in Hplain. unfold listing_of, has_marker.
  destruct (marker_of tokens line0) as [m|] eqn:Hm.
  - apply negb_true_iff in Hplain.
    unfold structural_markers, early_markers in Hplain.
    split_mem Hplain.
    destruct (process_line_marker opts tokens lang_name fb state line0 m Hm)
      as [-> Hnth].
    unfold process_fields, intro_stage, prologue_stage.
    rewrite Hnth, Hres, Hintro, Hpro, Hsrc.
    repeat match goal with E : (m =? _) = false |- _ => rewrite E; clear E end.
    reflexivity.
  - apply process_line_skipped; exact Hm.
Qed.

Lemma source_region_lines state body :
  resource state = false -> intro state = false ->
  prologue state = false -> source state = true ->
  forallb (plain_line tokens) body = true ->
  process_lines opts tokens lang_name fb state body
  = (inr state, flat_map (listing_of tokens) body).
Proof.
  intros Hres Hintro Hpro Hsrc.
  induction body as [|line0 body IH]; simpl; intro Hall; [reflexivity |].
  apply andb_true_iff in Hall. destruct Hall as [H1 H2].
  rewrite (source_region_line state line0 Hres Hintro Hpro Hsrc H1).
  rewrite (IH H2). reflexivity.
Qed.

Lemma boc_line_opens state line0 :
  Opt.s opts = false ->
  resource state = false -> intro state = false ->
  marker_of tokens line0 = Some (boc tokens) ->
  field_line opts line0 = false ->
  process_line opts tokens lang_name fb state line0
  = (inr (fst (do_boc state lang_name)), snd (do_boc state lang_name)).
Proof.
  intros Hs Hres Hintro Hm Hfield.
  destruct (process_line_marker opts tokens lang_name fb state line0 _ Hm)
    as [-> Hnth].
  unfold process_fields, intro_stage.
  rewrite (prologue_stage_falls_through opts tokens lang_name fb state
             line0 Hfield).
  - rewrite Hnth, Hres, Hintro, Hs.
    pose proof tokens_supported as Htok.
    supported_cases Htok; reflexivity.
  - rewrite Hnth. pose proof tokens_supported as Htok.
    supported_cases Htok; reflexivity.
Qed.

Lemma eoc_line_closes state line0 :
  resource state = false -> intro state = false -> prologue state = false ->
  marker_of tokens line0 = Some (eoc tokens) ->
  process_line opts tokens lang_name fb state line0
  = (inr (fst (do_eoc state)), snd (do_eoc state)).
Proof.
  intros Hres Hintro Hpro Hm.
  destruct (process_line_marker opts tokens lang_name fb state line0 _ Hm)
    as [-> Hnth].
  unfold process_fields, intro_stage, prologue_stage.
  rewrite Hnth, Hres, Hintro, Hpro.
  pose proof tokens_supported as Htok.
  supported_cases Htok; reflexivity.
Qed.

Lemma bor_line_opens state line0 :
  resource state = false -> intro state = false ->
  marker_of tokens line0 = Some (bor tokens) ->
  process_line opts tokens lang_name fb state line0
  = (inr (set_resource true state), bor_skeleton).
Proof.
  intros Hres Hintro Hm.
  destruct (process_line_marker opts tokens lang_name fb state line0 _ Hm)
    as [-> Hnth].
  unfold process_fields, intro_stage.
  rewrite Hnth, Hres, Hintro.
  pose proof tokens_supported as Htok.
  supported_cases Htok; reflexivity.
Qed.

Lemma resource_rows state rows :
  resource state = true ->
  forallb (not_eor tokens) rows = true ->
  process_lines opts tokens lang_name fb state rows
  = (inr state, flat_map (row_of tokens) rows).
Proof.
  intro Hres.
  induction rows as [|line0 rows IH]; simpl; intro Hall; [reflexivity |].
  apply andb_true_iff in Hall. destruct Hall as [H1 H2].
  rewrite (resource_mode_line opts tokens lang_name fb state line0 Hres).
  unfold not_eor in H1. unfold row_of, has_marker.
  destruct (marker_of tokens line0) as [m|].
  - apply negb_true_iff in H1. rewrite H1, (IH H2). reflexivity.
  - rewrite (IH H2). reflexivity.
Qed.

End Regions.

(** X12.  A code listing.  Outside shut-up mode, with no resource table
    and no introduction open, a code-begin line, plain lines and a
    code-end line print the START CODE banner, the verbatim-begin
    delimiter, then every line that has a token at the marker position as
    it stands, leading blanks kept and trailing blanks removed (blank lines
    and lines holding only the comment symbol are dropped), then the
    verbatim-end delimiter and the END CODE banner; the region is closed
    again at the end. *)
Theorem X12_code_listing opts code tokens lang_name fb state
    boc_line body eoc_line :
  get_language_tokens code = inr tokens ->
  Opt.s opts = false ->
  resource state = false -> intro state = false ->
  marker_of tokens boc_line = Some (boc tokens) ->
  field_line opts boc_line = false ->
  forallb (plain_line tokens) body = true ->
  marker_of tokens eoc_line = Some (eoc tokens) ->
  process_lines opts tokens lang_name fb state
    (boc_line :: body +++ [eoc_line])
  = (inr (set_source false
            (set_verb false (set_prologue false (set_first false state)))),
     [ nl ++ " %------------------ START CODE ------------------%";
       minted_begin "breaklines,breakafter=-+*/&" lang_name ]
     +++ flat_map (listing_of tokens) body
     +++ [minted_end; end_code_banner]).
Proof.
  intros Htok Hs Hres Hintro Hb Hfield Hbody He.
  cbn [process_lines].
  rewrite (boc_line_opens opts code tokens lang_name fb Htok state boc_line
             Hs Hres Hintro Hb Hfield).
  rewrite (process_lines_app opts tokens lang_name fb
             (fst (do_boc state lang_name)) body [eoc_line]
             (fst (do_boc state lang_name))
             (flat_map (listing_of tokens) body)).
  - cbn [process_lines].
    rewrite (eoc_line_closes opts code tokens lang_name fb Htok
               (fst (do_boc state lang_name)) eoc_line Hres Hintro
               eq_refl He).
    cbn [fst snd]. rewrite do_eoc_state.
    unfold do_eoc, do_boc. cbn.
    destruct state; reflexivity.
  - apply (source_region_lines opts tokens lang_name fb);
      try assumption; reflexivity.
Qed.

Lemma X12_code_listing_witness :
  process_lines default_opts fortran_tokens "fortran" "a.f90" initial_state
    ("!BOC" :: ["  x = 1   "; ""; "!"; "    call f(x)"] +++ ["!EOC"])
  = (inr (set_source false
            (set_verb false
               (set_prologue false (set_first false initial_state)))),
     [ nl ++ " %------------------ START CODE ------------------%";
       minted_begin "breaklines,breakafter=-+*/&" "fortran" ]
     +++ flat_map (listing_of fortran_tokens)
           ["  x = 1   "; ""; "!"; "    call f(x)"]
     +++ [minted_end; end_code_banner]).
Proof.
  apply (X12_code_listing default_opts "F" fortran_tokens "fortran" "a.f90"
           initial_state "!BOC" ["  x = 1   "; ""; "!"; "    call f(x)"] "!EOC");
    vm_compute; reflexivity.
Defined.

(** X13.  A resource table.  With no resource table and no introduction
    open, a resource-begin line, rows and a resource-end line print the
    whole table skeleton first (its closing included) and then the rows,
    each as [process_resource_line] renders it (rows without a token at the
    marker position print nothing); at the end the state is exactly what
    it was before the block. *)
Theorem X13_resource_block opts code tokens lang_name fb state
    bor_line rows eor_line :
  get_language_tokens code = inr tokens ->
  resource state = false -> intro state = false ->
  marker_of tokens bor_line = Some (bor tokens) ->
  forallb (not_eor tokens) rows = true ->
  marker_of tokens eor_line = Some (eor tokens) ->
  process_lines opts tokens lang_name fb state
    (bor_line :: rows +++ [eor_line])
  = (inr state, bor_skeleton +++ flat_map (row_of tokens) rows).
Proof.
  intros Htok Hres Hintro Hb Hrows He.
  cbn [process_lines].
  rewrite (bor_line_opens opts code tokens lang_name fb Htok state bor_line
             Hres Hintro Hb).
  rewrite (process_lines_app opts tokens lang_name fb
             (set_resource true state) rows [eor_line]
             (set_resource true state) (flat_map (row_of tokens) rows)).
  - cbn [process_lines].
    rewrite (resource_mode_line opts tokens lang_name fb
               (set_resource true state) eor_line eq_refl), He.
    rewrite String.eqb_refl. cbn [fst snd].
    rewrite app_nil_r.
    destruct state; simpl in *; subst; reflexivity.
  - apply resource_rows; [reflexivity | exact Hrows].
Qed.

Lemma X13_resource_block_witness :
  process_lines default_opts fortran_tokens "fortran" "a.f90" initial_state
    ("!BOR" :: ["dt, time step, s, 60"; ""; "note"] +++ ["!EOR"])
  = (inr initial_state,
     bor_skeleton
     +++ flat_map (row_of fortran_tokens) ["dt, time step, s, 60"; ""; "note"]).
Proof.
  apply (X13_resource_block default_opts "F" fortran_tokens "fortran" "a.f90"
           initial_state "!BOR" ["dt, time step, s, 60"; ""; "note"] "!EOR");
    vm_compute; reflexivity.
Defined.

(** ** The keys of an introduction *)

Lemma pop_marker_keeps_key tokens fields :
  marker_index tokens fields + 1 < length fields ->
  pop_marker (marker_index tokens fields) fields
  = nth (marker_index tokens fields + 1) fields EmptyString
    :: skipn (marker_index tokens fields + 2) fields.
Proof.
  unfold marker_index, pop_marker.
  destruct fields as [|f0 [|f1 [|f2 rest]]]; simpl;
    try destruct (f0 =? comment tokens); simpl; intro H;
    try reflexivity; lia.
Qed.

(** X14.  While an introduction is open, the title and introduction keys
    are looked for one token after the marker position, and the text that
    is kept starts with the key itself: a [!TITLE:] key stores as title the
    key followed by the rest of the line and raises the title-page flag
    without printing; an [!INTRODUCTION:] key begins the document if need
    be and prints a section heading whose text is the key followed by the
    rest of the line. *)
Theorem X14_introduction_keys_keep_marker opts tokens lang_name fb state
    line0 m :
  resource state = false -> intro state = true ->
  marker_of tokens line0 = Some m ->
  (m =? "!QUOTE:") = false -> (m =? boi tokens) = false ->
  marker_index tokens (fields_of line0) + 1 < length (fields_of line0) ->
  (nth (marker_index tokens (fields_of line0) + 1) (fields_of line0)
     EmptyString = "!TITLE:" ->
   process_line opts tokens lang_name fb state line0
   = (inr (set_tpage true
             (set_title
                (join " "
                   ("!TITLE:"
                    :: skipn (marker_index tokens (fields_of line0) + 2)
                         (fields_of line0)))
                state)),
      []))
  /\ (nth (marker_index tokens (fields_of line0) + 1) (fields_of line0)
        EmptyString = "!INTRODUCTION:" ->
      process_line opts tokens lang_name fb state line0
      = (inr (fst (do_beg state (Opt.bare opts))),
         snd (do_beg state (Opt.bare opts))
         +++ [ " %..............................................";
               "\section{"
               ++ join " "
                    ("!INTRODUCTION:"
                     :: skipn (marker_index tokens (fields_of line0) + 2)
                          (fields_of line0))
               ++ "}" ])).
Proof.
  intros Hres Hintro Hm Hq Hb Hlen.
  destruct (process_line_marker opts tokens lang_name fb state line0 m Hm)
    as [-> Hnth].
  unfold process_fields, intro_stage.
  rewrite Hnth, Hres, Hq, Hb, Hintro.
  rewrite (pop_marker_keeps_key tokens (fields_of line0) Hlen).
  apply Nat.ltb_lt in Hlen. rewrite Hlen. simpl andb. cbv iota.
  split; intro Hk; rewrite Hk; simpl String.eqb; cbv iota.
  - reflexivity.
  - destruct (do_beg state (Opt.bare opts)); reflexivity.
Qed.

Lemma X14_introduction_keys_keep_marker_witness :
  process_line default_opts fortran_tokens "fortran" "a.f90"
    (set_intro true initial_state) "! x !TITLE: My Doc"
  = (inr (set_tpage true
            (set_title
               (join " "
                  ("!TITLE:"
                   :: skipn (marker_index fortran_tokens
                               (fields_of "! x !TITLE: My Doc") + 2)
                        (fields_of "! x !TITLE: My Doc")))
               (set_intro true initial_state))),
     []).
Proof.
  apply (X14_introduction_keys_keep_marker default_opts fortran_tokens
           "fortran" "a.f90" (set_intro true initial_state)
           "! x !TITLE: My Doc" "x");
    try (vm_compute; reflexivity).
  vm_compute. lia.
Defined.

(** ** [main] *)

Lemma find_first_switch (is_set : string -> bool)
    (table : list (string * LangInfo)) :
  forall before code after,
    map fst table = before +++ code :: after ->
    forallb (fun c => negb (is_set c)) before = true ->
    is_set code = true ->
    exists info,
      find (fun entry => is_set (fst entry)) table = Some (code, info).
Proof.
  induction table as [|[c info] table IH]; intros before code after Hmap Hb Hc.
  - destruct before; discriminate Hmap.
  - destruct before as [|b before]; simpl in Hmap; inversion Hmap; subst.
    + exists info. simpl. rewrite Hc. reflexivity.
    + simpl in Hb. apply andb_true_iff in Hb. destruct Hb as [Hb1 Hb2].
      apply negb_true_iff in Hb1. simpl. rewrite Hb1.
      exact (IH before code after H1 Hb2 Hc).
Qed.

(** X15.  The language of a run.  The supported codes are the keys of the
    language table in its order, and the first of them whose switch is set
    is the language of the run, whatever the later switches (so [-F] beats
    every other switch, and [-A] beats [-P]); without any switch the
    language is F; the choice is always a supported code, whose token dict
    [get_language_tokens] returns without raising. *)
Theorem X15_select_language (is_set : string -> bool) :
  map fst language_info = supported_codes
  /\ mem (select_language is_set) supported_codes = true
  /\ (exists tokens, get_language_tokens (select_language is_set) = inr tokens)
  /\ (forall before code after,
        supported_codes = before +++ code :: after ->
        forallb (fun c => negb (is_set c)) before = true ->
        is_set code = true ->
        select_language is_set = code)
  /\ (forallb (fun c => negb (is_set c)) supported_codes = true ->
      select_language is_set = "F").
Proof.
  split; [reflexivity |].
  assert (Hfirst : forall before code after,
            supported_codes = before +++ code :: after ->
            forallb (fun c => negb (is_set c)) before = true ->
            is_set code = true ->
            select_language is_set = code).
  { intros before code after Hs Hb Hc. unfold select_language.
    destruct (find_first_switch is_set language_info before code after
                Hs Hb Hc) as [info ->].
    reflexivity. }
  split; [| split; [| split; [exact Hfirst |]]].
  - unfold select_language, language_info, find, fst, supported_codes.
    repeat match goal with
           | |- context [if is_set ?c then _ else _] => destruct (is_set c)
           end; reflexivity.
  - unfold select_language, language_info, find, fst.
    repeat match goal with
           | |- context [if is_set ?c then _ else _] => destruct (is_set c)
           end; eexists; reflexivity.
  - unfold supported_codes, select_language, language_info, find, fst.
    simpl forallb.
    destruct (is_set "F"), (is_set "A"), (is_set "C"), (is_set "S"),
      (is_set "G"), (is_set "P"); simpl; intro H;
      first [reflexivity | discriminate H].
Qed.

Lemma X15_select_language_witness :
  select_language (fun c => (c =? "P") || (c =? "A")) = "A".
Proof.
  destruct (X15_select_language (fun c => (c =? "P") || (c =? "A")))
    as (_ & _ & _ & H & _).
  apply (H ["F"] "A" ["C"; "S"; "G"; "P"]); reflexivity.
Defined.

Lemma selected_language_supported (is_set : string -> bool) :
  mem (select_language is_set) supported_codes = true
  /\ exists tokens, get_language_tokens (select_language is_set) = inr tokens.
Proof.
  unfold select_language, language_info, find, fst, supported_codes.
  destruct (is_set "F"); [| destruct (is_set "A");
    [| destruct (is_set "C");
       [| destruct (is_set "S");
          [| destruct (is_set "G");
             [| destruct (is_set "P") ]]]]];
    (split; [reflexivity | eexists; reflexivity]).
Qed.

Section MainLoop.

Variables (w : World) (opts : Opt.t) (tokens : Tokens) (lang : string).
Hypothesis lang_supported : mem lang supported_codes = true.



End MainLoop.


Section PlainRun.

Variables (w : World) (opts : Opt.t) (tokens : Tokens) (lang : string).
Hypothesis lang_supported : mem lang supported_codes = true.

(** A file of plain lines read outside every region prints its page
    heading and an empty line, and leaves the state alone. *)
Lemma plain_file f filename file_date state :
  resource state = false -> intro state = false ->
  prologue state = false -> source state = false ->
  forallb (plain_line tokens) f = true ->
  process_file f filename file_date state tokens lang opts
  = (inr state,
     (if negb (Opt.g opts || Opt.M opts)
      then [ nl ++ "\markboth{Left}{Source File: " ++ file_basename_of filename
             ++ ",  Date: " ++ file_date ++ "}" ++ nl ]
      else [])
     +++ [EmptyString]).
Proof.
  intros Hres Hintro Hpro Hsrc Hf. unfold process_file.
  destruct (lang_name_total lang lang_supported) as [lang_name ->].
  rewrite markboth_format.
  rewrite (idle_plain_lines opts tokens lang_name (file_basename_of filename)
             state f Hres Hintro Hpro Hsrc Hf).
  rewrite Hsrc.
  destruct (negb (Opt.g opts || Opt.M opts)); reflexivity.
Qed.

Lemma plain_main_loop files :
  forall k input,
    readable_plain tokens input ->
    (forall name, In name files ->
       (name =? "-") || (name =? EmptyString) = true
       \/ exists f, open_file w name = Some f /\ readable_plain tokens f) ->
    exists body,
      main_loop w files k input initial_state tokens lang opts
      = (inr initial_state, body)
      /\ ~ In "\begin{document}" body.
Proof.
  induction files as [|filename files IH]; intros k input Hinput Hfiles.
  - exists []. split; [reflexivity | intros []].
  - assert (Hrest : forall name, In name files ->
              (name =? "-") || (name =? EmptyString) = true
              \/ exists f, open_file w name = Some f /\ readable_plain tokens f)
      by (intros name Hin; apply Hfiles; right; exact Hin).
    assert (Hmark : forall (o : list string) (a b : string),
              ~ In "\begin{document}" o ->
              ~ In "\begin{document}"
                  (((if negb (Opt.g opts || Opt.M opts)
                     then [ nl ++ "\markboth{Left}{Source File: " ++ a
                            ++ ",  Date: " ++ b ++ "}" ++ nl ]
                     else [])
                    +++ [EmptyString]) +++ o)).
    { intros o a b Ho Hin.
      destruct (negb (Opt.g opts || Opt.M opts)); simpl in Hin;
        repeat (destruct Hin as [Hin | Hin]; [discriminate Hin |]);
        exact (Ho Hin). }
    assert (Hstream : forall s name date,
              readable_plain tokens s ->
              process_stream s name date initial_state tokens lang opts
              = (inr initial_state,
                 (if negb (Opt.g opts || Opt.M opts)
                  then [ nl ++ "\markboth{Left}{Source File: "
                         ++ file_basename_of name
                         ++ ",  Date: " ++ date ++ "}" ++ nl ]
                  else [])
                 +++ [EmptyString])).
    { intros s name date [He Hp]. unfold process_stream. rewrite He.
      rewrite (plain_file (st_lines s) name date initial_state)
        by (try reflexivity; exact Hp).
      reflexivity. }
    simpl.
    destruct ((filename =? "-") || (filename =? EmptyString)) eqn:En.
    + rewrite (Hstream input filename (now w k) Hinput).
      destruct (IH (S k) exhausted (conj eq_refl eq_refl) Hrest)
        as (body & Hb & Hn).
      rewrite Hb. eexists. split; [reflexivity | apply Hmark; exact Hn].
    + destruct (Hfiles filename (or_introl eq_refl)) as [H | (f & Hf & Hp)];
        [rewrite En in H; discriminate H |].
      rewrite Hf, (Hstream f filename (now w k) Hp).
      destruct (IH (S k) input Hinput Hrest) as (body & Hb & Hn).
      rewrite Hb. eexists. split; [reflexivity | apply Hmark; exact Hn].
Qed.

End PlainRun.

Lemma boilerplate_has_no_document_begin (style : option string) :
  ~ In "\begin{document}" (print_notice +++ print_preamble style +++ print_macros)
  /\ ~ In "\begin{document}" (print_notice +++ print_macros).
Proof.
  split; intro Hin;
    [ unfold print_preamble in Hin;
      destruct style as [st|]; [destruct (is_empty st) |] |];
    simpl in Hin;
    repeat (destruct Hin as [Hin | Hin]; [discriminate Hin |]);
    exact Hin.
Qed.

(** X17.  A run over inputs without any structural marker.  Outside bare
    mode, when every input can be opened and read to its end and none of
    the lines has a structural marker at the marker position, [main] ends
    normally with the state it started from, so the document-begin
    sequence is never printed, and yet the last line printed is
    [\end{document}]: the document is closed without having been begun. *)
Theorem X17_document_closed_but_never_begun (w : World) (opts : Opt.t)
    (is_set : string -> bool) (files_arg : list string) (tokens : Tokens) :
  Opt.bare opts = false ->
  get_language_tokens (select_language is_set) = inr tokens ->
  st_error (stdin w) = None ->
  forallb (plain_line tokens) (st_lines (stdin w)) = true ->
  (forall name, In name files_arg ->
     (name =? "-") || (name =? EmptyString) = true
     \/ exists f, open_file w name = Some f
                  /\ st_error f = None
                  /\ forallb (plain_line tokens) (st_lines f) = true) ->
  exists body,
    main w opts is_set files_arg
    = (inr initial_state, body +++ ["\end{document}"])
    /\ ~ In "\begin{document}" body
    /\ begdoc initial_state = false.
Proof.
  intros Hbare Htok Herr Hstdin Hfiles. unfold main. rewrite Htok, Hbare.
  destruct (selected_language_supported is_set) as [Hsup _].
  assert (Hall : forall name,
            In name (match files_arg with [] => ["-"] | _ :: _ => files_arg end) ->
            (name =? "-") || (name =? EmptyString) = true
            \/ exists f, open_file w name = Some f /\ readable_plain tokens f).
  { destruct files_arg as [|x xs].
    - intros name [<- | []]. left; reflexivity.
    - intros name Hin. destruct (Hfiles name Hin) as [H | (f & H1 & H2 & H3)];
        [left; exact H | right; exists f; split; [exact H1 | split; assumption]]. }
  destruct (plain_main_loop w opts tokens (select_language is_set) Hsup
              _ 0 (stdin w) (conj Herr Hstdin) Hall) as (loop_out & Hb & Hn).
  rewrite Hb. cbn [negb].
  exists ((print_notice +++ print_preamble (Opt.style opts) +++ print_macros)
          +++ loop_out).
  split; [rewrite <- !app_assoc; reflexivity | split; [| reflexivity]].
  intro Hin. apply in_app_or in Hin. destruct Hin as [Hin | Hin].
  - exact (proj1 (boilerplate_has_no_document_begin (Opt.style opts)) Hin).
  - exact (Hn Hin).
Qed.

Lemma X17_document_closed_but_never_begun_witness :
  exists body,
    main (mkWorld (mkStream ["  program p"; "  x = 1"; "  end program p"] None)
            (fun _ => None) (fun _ => "today"))
      default_opts (fun _ => false) []
    = (inr initial_state, body +++ ["\end{document}"])
    /\ ~ In "\begin{document}" body
    /\ begdoc initial_state = false.
Proof.
  apply (X17_document_closed_but_never_begun
           (mkWorld (mkStream ["  program p"; "  x = 1"; "  end program p"] None)
              (fun _ => None) (fun _ => "today"))
           default_opts (fun _ => false) [] fortran_tokens);
    try (vm_compute; reflexivity).
  intros name [].
Defined.

(** ** Prologue text and file names *)

(** X18.  Text inside an open prologue.  With no resource table and no
    introduction open, a line of an open prologue that is no field line
    and whose marker token is neither a structural marker nor a prologue
    end marker is printed once, stripped of the blanks around it and of one
    leading comment symbol when it starts with it (what follows the symbol,
    blanks included, is kept); the state does not change. *)
Theorem X18_prologue_text opts tokens lang_name fb state line0 m :
  resource state = false -> intro state = false -> prologue state = true ->
  marker_of tokens line0 = Some m ->
  mem m (structural_markers tokens) = false ->
  mem m [eop tokens; eopi tokens] = false ->
  field_line opts line0 = false ->
  process_line opts tokens lang_name fb state line0
  = (inr state,
     [ if startswith (stripped_of line0) (comment tokens)
       then drop (String.length (comment tokens)) (stripped_of line0)
       else stripped_of line0 ]).
Proof.
  intros Hres Hintro Hpro Hm Hmem Hend Hfield.
  destruct (process_line_marker opts tokens lang_name fb state line0 m Hm)
    as [-> Hnth].
  unfold process_fields, intro_stage.
  rewrite (prologue_stage_falls_through opts tokens lang_name fb state
             line0 Hfield) by (rewrite Hnth; exact Hend).
  unfold structural_markers, early_markers in Hmem. split_mem Hmem.
  rewrite Hnth, Hres, Hintro, Hpro.
  repeat match goal with E : (m =? _) = false |- _ => rewrite E; clear E end.
  reflexivity.
Qed.

Lemma X18_prologue_text_witness :
  process_line default_opts fortran_tokens "fortran" "a.f90"
    (set_prologue true initial_state) "   !  Computes the time step.  "
  = (inr (set_prologue true initial_state),
     [ if startswith (stripped_of "   !  Computes the time step.  ")
            (comment fortran_tokens)
       then drop (String.length (comment fortran_tokens))
              (stripped_of "   !  Computes the time step.  ")
       else stripped_of "   !  Computes the time step.  " ]).
Proof.
  apply (X18_prologue_text default_opts fortran_tokens "fortran" "a.f90"
           (set_prologue true initial_state)
           "   !  Computes the time step.  " "Computes");
    vm_compute; reflexivity.
Defined.

Lemma no_slash_cons (c : ascii) (n : string) :
  str_in "/" (String c n) = false ->
  Ascii.eqb c "/" = false /\ str_in "/" n = false.
Proof.
  cbn [str_in String.prefix]. intro H.
  apply orb_false_iff in H. destruct H as [H1 H2]. split; [| exact H2].
  destruct (ascii_dec "/" c) as [E | E].
  - subst c. destruct n; discriminate H1.
  - apply Ascii.eqb_neq. congruence.
Qed.

Lemma append_assoc (a b c : string) : (a ++ b) ++ c = a ++ (b ++ c).
Proof.
  induction a as [|x a IH]; simpl; [reflexivity | rewrite IH; reflexivity].
Qed.

Lemma basename_go_no_slash (n cur : string) :
  str_in "/" n = false -> basename_go cur n = cur ++ n.
Proof.
  revert cur. induction n as [|c n IH]; intros cur H.
  - simpl. symmetry. apply append_empty_r.
  - apply no_slash_cons in H. destruct H as [Hc Hn].
    cbn [basename_go]. rewrite Hc, (IH _ Hn), append_assoc. reflexivity.
Qed.

Lemma basename_go_last (dir n cur : string) :
  str_in "/" n = false ->
  basename_go cur (dir ++ String "/" n) = n.
Proof.
  intro Hn. revert cur. induction dir as [|c dir IH]; intro cur.
  - cbn [append basename_go]. change (Ascii.eqb "/" "/") with true.
    cbv iota. exact (basename_go_no_slash n EmptyString Hn).
  - cbn [append basename_go]. destruct (Ascii.eqb c "/"); apply IH.
Qed.

Lemma path_is_not_dash (dir n : string) : (dir ++ String "/" n =? "-") = false.
Proof.
  destruct dir as [|c [|c' dir]]; [reflexivity | |];
    simpl; destruct (Ascii.eqb c "-"); reflexivity.
Qed.

(** X19.  The file name printed in headings.  For a path with a
    directory part, it is the part after the last slash with its
    underscores escaped; a name without a slash (other than a lone dash) is
    printed whole, escaped; a lone dash prints as Standard Input, while the
    empty name, which [main] also reads from standard input, prints as an
    empty name. *)
Theorem X19_file_basename (dir name : string) :
  str_in "/" name = false ->
  file_basename_of (dir ++ String "/" name) = escape_chars name
  /\ ((name =? "-") = false -> file_basename_of name = escape_chars name)
  /\ file_basename_of "-" = "Standard Input"
  /\ file_basename_of EmptyString = EmptyString.
Proof.
  intro Hn. unfold file_basename_of, replace, basename.
  repeat split.
  - rewrite path_is_not_dash, (basename_go_last dir name EmptyString Hn).
    apply replace_go_escape.
  - intro Hd. rewrite Hd, (basename_go_no_slash name EmptyString Hn).
    apply replace_go_escape.
Qed.

Lemma X19_file_basename_witness :
  file_basename_of ("src/core" ++ String "/" "m_time.f90")
  = escape_chars "m_time.f90"
  /\ (("m_time.f90" =? "-") = false ->
      file_basename_of "m_time.f90" = escape_chars "m_time.f90")
  /\ file_basename_of "-" = "Standard Input"
  /\ file_basename_of EmptyString = EmptyString.
Proof.
  apply (X19_file_basename "src/core" "m_time.f90").
  reflexivity.
Defined.

